(** * Scholar citation tracker: the diff engine, the fetcher loop, the
    snapshot update and the dashboard projection of
    [scripts/check_citations.py], embedded as Rocq functions.

    Conventions of the embedding:
    - a JSON object is a record whose fields are [option]s: [None] is a
      missing key, so that [dict.get(key, default)] is [default] on the
      field and [dict[key]] fails ([None] in the option monad) when the key
      is missing;
    - Python integers are unbounded, hence [Z];
    - text is a list of Unicode code points, on which [str.strip] and
      [str.lower] work as in CPython;
    - the [dict] used as a lookup table is a [gmap] keyed by strings. *)

From Stdlib Require Import ZArith NArith Lia Sorted Ascii String.
From stdpp Require Import gmap strings list fin_maps sorting.
From Equations Require Import Equations.

Local Open Scope Z_scope.

(** ** Python string methods *)

(** Text is a sequence of Unicode code points. *)
Abbreviation text := (list N).

(** The text of a literal made of code points below 256. *)
Definition txt (s : string) : text :=
  map N_of_ascii (list_ascii_of_string s).

(** [str.strip] and [str.lower] as CPython 3.11 carries them out, with the
    character tables of Unicode 14.0.0. *)
Module PyStr.

(** [str.isspace] on one code point. *)
Definition isspace (c : N) : bool :=
  ((9 <=? c) && (c <=? 13) || (28 <=? c) && (c <=? 32)
   || (c =? 133) || (c =? 160) || (c =? 5760)
   || (8192 <=? c) && (c <=? 8202) || (8232 <=? c) && (c <=? 8233)
   || (c =? 8239) || (c =? 8287) || (c =? 12288))%N.

(** The code points with a lower-case form of one code point, in runs
    (first, count, step, lower-case form of the first): the run holds
    [first], [first + step], ... and the forms follow at the same step. *)
Definition lower_runs : list (N * N * N * N) :=
  [
    (65, 26, 1, 97); (192, 23, 1, 224); (216, 7, 1, 248);
    (256, 24, 2, 257); (306, 3, 2, 307); (313, 8, 2, 314);
    (330, 23, 2, 331); (376, 1, 1, 255); (377, 3, 2, 378);
    (385, 1, 1, 595); (386, 2, 2, 387); (390, 1, 1, 596);
    (391, 1, 1, 392); (393, 2, 1, 598); (395, 1, 1, 396);
    (398, 1, 1, 477); (399, 1, 1, 601); (400, 1, 1, 603);
    (401, 1, 1, 402); (403, 1, 1, 608); (404, 1, 1, 611);
    (406, 1, 1, 617); (407, 1, 1, 616); (408, 1, 1, 409);
    (412, 1, 1, 623); (413, 1, 1, 626); (415, 1, 1, 629);
    (416, 3, 2, 417); (422, 1, 1, 640); (423, 1, 1, 424);
    (425, 1, 1, 643); (428, 1, 1, 429); (430, 1, 1, 648);
    (431, 1, 1, 432); (433, 2, 1, 650); (435, 2, 2, 436);
    (439, 1, 1, 658); (440, 1, 1, 441); (444, 1, 1, 445);
    (452, 1, 1, 454); (453, 1, 1, 454); (455, 1, 1, 457);
    (456, 1, 1, 457); (458, 1, 1, 460); (459, 9, 2, 460);
    (478, 9, 2, 479); (497, 1, 1, 499); (498, 2, 2, 499);
    (502, 1, 1, 405); (503, 1, 1, 447); (504, 20, 2, 505);
    (544, 1, 1, 414); (546, 9, 2, 547); (570, 1, 1, 11365);
    (571, 1, 1, 572); (573, 1, 1, 410); (574, 1, 1, 11366);
    (577, 1, 1, 578); (579, 1, 1, 384); (580, 1, 1, 649);
    (581, 1, 1, 652); (582, 5, 2, 583); (880, 2, 2, 881);
    (886, 1, 1, 887); (895, 1, 1, 1011); (902, 1, 1, 940);
    (904, 3, 1, 941); (908, 1, 1, 972); (910, 2, 1, 973);
    (913, 17, 1, 945); (931, 9, 1, 963); (975, 1, 1, 983);
    (984, 12, 2, 985); (1012, 1, 1, 952); (1015, 1, 1, 1016);
    (1017, 1, 1, 1010); (1018, 1, 1, 1019); (1021, 3, 1, 891);
    (1024, 16, 1, 1104); (1040, 32, 1, 1072); (1120, 17, 2, 1121);
    (1162, 27, 2, 1163); (1216, 1, 1, 1231); (1217, 7, 2, 1218);
    (1232, 48, 2, 1233); (1329, 38, 1, 1377); (4256, 38, 1, 11520);
    (4295, 1, 1, 11559); (4301, 1, 1, 11565); (5024, 80, 1, 43888);
    (5104, 6, 1, 5112); (7312, 43, 1, 4304); (7357, 3, 1, 4349);
    (7680, 75, 2, 7681); (7838, 1, 1, 223); (7840, 48, 2, 7841);
    (7944, 8, 1, 7936); (7960, 6, 1, 7952); (7976, 8, 1, 7968);
    (7992, 8, 1, 7984); (8008, 6, 1, 8000); (8025, 4, 2, 8017);
    (8040, 8, 1, 8032); (8072, 8, 1, 8064); (8088, 8, 1, 8080);
    (8104, 8, 1, 8096); (8120, 2, 1, 8112); (8122, 2, 1, 8048);
    (8124, 1, 1, 8115); (8136, 4, 1, 8050); (8140, 1, 1, 8131);
    (8152, 2, 1, 8144); (8154, 2, 1, 8054); (8168, 2, 1, 8160);
    (8170, 2, 1, 8058); (8172, 1, 1, 8165); (8184, 2, 1, 8056);
    (8186, 2, 1, 8060); (8188, 1, 1, 8179); (8486, 1, 1, 969);
    (8490, 1, 1, 107); (8491, 1, 1, 229); (8498, 1, 1, 8526);
    (8544, 16, 1, 8560); (8579, 1, 1, 8580); (9398, 26, 1, 9424);
    (11264, 48, 1, 11312); (11360, 1, 1, 11361); (11362, 1, 1, 619);
    (11363, 1, 1, 7549); (11364, 1, 1, 637); (11367, 3, 2, 11368);
    (11373, 1, 1, 593); (11374, 1, 1, 625); (11375, 1, 1, 592);
    (11376, 1, 1, 594); (11378, 1, 1, 11379); (11381, 1, 1, 11382);
    (11390, 2, 1, 575); (11392, 50, 2, 11393); (11499, 2, 2, 11500);
    (11506, 1, 1, 11507); (42560, 23, 2, 42561); (42624, 14, 2, 42625);
    (42786, 7, 2, 42787); (42802, 31, 2, 42803); (42873, 2, 2, 42874);
    (42877, 1, 1, 7545); (42878, 5, 2, 42879); (42891, 1, 1, 42892);
    (42893, 1, 1, 613); (42896, 2, 2, 42897); (42902, 10, 2, 42903);
    (42922, 1, 1, 614); (42923, 1, 1, 604); (42924, 1, 1, 609);
    (42925, 1, 1, 620); (42926, 1, 1, 618); (42928, 1, 1, 670);
    (42929, 1, 1, 647); (42930, 1, 1, 669); (42931, 1, 1, 43859);
    (42932, 8, 2, 42933); (42948, 1, 1, 42900); (42949, 1, 1, 642);
    (42950, 1, 1, 7566); (42951, 2, 2, 42952); (42960, 1, 1, 42961);
    (42966, 2, 2, 42967); (42997, 1, 1, 42998); (65313, 26, 1, 65345);
    (66560, 40, 1, 66600); (66736, 36, 1, 66776); (66928, 11, 1, 66967);
    (66940, 15, 1, 66979); (66956, 7, 1, 66995); (66964, 2, 1, 67003);
    (68736, 51, 1, 68800); (71840, 32, 1, 71872); (93760, 32, 1, 93792);
    (125184, 34, 1, 125218)
  ]%N.

Definition expand_run (run : N * N * N * N) : list (N * N) :=
  let '(first, count, step, target) := run in
  map (λ k, (first + N.of_nat k * step, target + N.of_nat k * step)%N)
      (seq 0 (N.to_nat count)).

Definition lower_pairs : list (N * N) := flat_map expand_run lower_runs.

(** The lower-case form of a code point that has one, else the code point
    itself. *)
Definition lower_simple (c : N) : N :=
  match find (λ p, fst p =? c)%N lower_pairs with
  | Some p => snd p
  | None => c
  end.

(** The full lower-case mapping: U+0130 alone gives two code points. *)
Definition lower_full (c : N) : text :=
  if (c =? 304)%N then [105; 775]%N else [lower_simple c].

Definition in_ranges (c : N) (ranges : list (N * N)) : bool :=
  existsb (λ r, (fst r <=? c) && (c <=? snd r))%N ranges.

(** The code points with the property Case_Ignorable. *)
Definition case_ignorable_ranges : list (N * N) :=
  [
    (39, 39); (46, 46); (58, 58); (94, 94);
    (96, 96); (168, 168); (173, 173); (175, 175);
    (180, 180); (183, 184); (688, 879); (884, 885);
    (890, 890); (900, 901); (903, 903); (1155, 1161);
    (1369, 1369); (1375, 1375); (1425, 1469); (1471, 1471);
    (1473, 1474); (1476, 1477); (1479, 1479); (1524, 1524);
    (1536, 1541); (1552, 1562); (1564, 1564); (1600, 1600);
    (1611, 1631); (1648, 1648); (1750, 1757); (1759, 1768);
    (1770, 1773); (1807, 1807); (1809, 1809); (1840, 1866);
    (1958, 1968); (2027, 2037); (2042, 2042); (2045, 2045);
    (2070, 2093); (2137, 2139); (2184, 2184); (2192, 2193);
    (2200, 2207); (2249, 2306); (2362, 2362); (2364, 2364);
    (2369, 2376); (2381, 2381); (2385, 2391); (2402, 2403);
    (2417, 2417); (2433, 2433); (2492, 2492); (2497, 2500);
    (2509, 2509); (2530, 2531); (2558, 2558); (2561, 2562);
    (2620, 2620); (2625, 2626); (2631, 2632); (2635, 2637);
    (2641, 2641); (2672, 2673); (2677, 2677); (2689, 2690);
    (2748, 2748); (2753, 2757); (2759, 2760); (2765, 2765);
    (2786, 2787); (2810, 2815); (2817, 2817); (2876, 2876);
    (2879, 2879); (2881, 2884); (2893, 2893); (2901, 2902);
    (2914, 2915); (2946, 2946); (3008, 3008); (3021, 3021);
    (3072, 3072); (3076, 3076); (3132, 3132); (3134, 3136);
    (3142, 3144); (3146, 3149); (3157, 3158); (3170, 3171);
    (3201, 3201); (3260, 3260); (3263, 3263); (3270, 3270);
    (3276, 3277); (3298, 3299); (3328, 3329); (3387, 3388);
    (3393, 3396); (3405, 3405); (3426, 3427); (3457, 3457);
    (3530, 3530); (3538, 3540); (3542, 3542); (3633, 3633);
    (3636, 3642); (3654, 3662); (3761, 3761); (3764, 3772);
    (3782, 3782); (3784, 3789); (3864, 3865); (3893, 3893);
    (3895, 3895); (3897, 3897); (3953, 3966); (3968, 3972);
    (3974, 3975); (3981, 3991); (3993, 4028); (4038, 4038);
    (4141, 4144); (4146, 4151); (4153, 4154); (4157, 4158);
    (4184, 4185); (4190, 4192); (4209, 4212); (4226, 4226);
    (4229, 4230); (4237, 4237); (4253, 4253); (4348, 4348);
    (4957, 4959); (5906, 5908); (5938, 5939); (5970, 5971);
    (6002, 6003); (6068, 6069); (6071, 6077); (6086, 6086);
    (6089, 6099); (6103, 6103); (6109, 6109); (6155, 6159);
    (6211, 6211); (6277, 6278); (6313, 6313); (6432, 6434);
    (6439, 6440); (6450, 6450); (6457, 6459); (6679, 6680);
    (6683, 6683); (6742, 6742); (6744, 6750); (6752, 6752);
    (6754, 6754); (6757, 6764); (6771, 6780); (6783, 6783);
    (6823, 6823); (6832, 6862); (6912, 6915); (6964, 6964);
    (6966, 6970); (6972, 6972); (6978, 6978); (7019, 7027);
    (7040, 7041); (7074, 7077); (7080, 7081); (7083, 7085);
    (7142, 7142); (7144, 7145); (7149, 7149); (7151, 7153);
    (7212, 7219); (7222, 7223); (7288, 7293); (7376, 7378);
    (7380, 7392); (7394, 7400); (7405, 7405); (7412, 7412);
    (7416, 7417); (7468, 7530); (7544, 7544); (7579, 7679);
    (8125, 8125); (8127, 8129); (8141, 8143); (8157, 8159);
    (8173, 8175); (8189, 8190); (8203, 8207); (8216, 8217);
    (8228, 8228); (8231, 8231); (8234, 8238); (8288, 8292);
    (8294, 8303); (8305, 8305); (8319, 8319); (8336, 8348);
    (8400, 8432); (11388, 11389); (11503, 11505); (11631, 11631);
    (11647, 11647); (11744, 11775); (11823, 11823); (12293, 12293);
    (12330, 12333); (12337, 12341); (12347, 12347); (12441, 12446);
    (12540, 12542); (40981, 40981); (42232, 42237); (42508, 42508);
    (42607, 42610); (42612, 42621); (42623, 42623); (42652, 42655);
    (42736, 42737); (42752, 42785); (42864, 42864); (42888, 42890);
    (42994, 42996); (43000, 43001); (43010, 43010); (43014, 43014);
    (43019, 43019); (43045, 43046); (43052, 43052); (43204, 43205);
    (43232, 43249); (43263, 43263); (43302, 43309); (43335, 43345);
    (43392, 43394); (43443, 43443); (43446, 43449); (43452, 43453);
    (43471, 43471); (43493, 43494); (43561, 43566); (43569, 43570);
    (43573, 43574); (43587, 43587); (43596, 43596); (43632, 43632);
    (43644, 43644); (43696, 43696); (43698, 43700); (43703, 43704);
    (43710, 43711); (43713, 43713); (43741, 43741); (43756, 43757);
    (43763, 43764); (43766, 43766); (43867, 43871); (43881, 43883);
    (44005, 44005); (44008, 44008); (44013, 44013); (64286, 64286);
    (64434, 64450); (65024, 65039); (65043, 65043); (65056, 65071);
    (65106, 65106); (65109, 65109); (65279, 65279); (65287, 65287);
    (65294, 65294); (65306, 65306); (65342, 65342); (65344, 65344);
    (65392, 65392); (65438, 65439); (65507, 65507); (65529, 65531);
    (66045, 66045); (66272, 66272); (66422, 66426); (67456, 67461);
    (67463, 67504); (67506, 67514); (68097, 68099); (68101, 68102);
    (68108, 68111); (68152, 68154); (68159, 68159); (68325, 68326);
    (68900, 68903); (69291, 69292); (69446, 69456); (69506, 69509);
    (69633, 69633); (69688, 69702); (69744, 69744); (69747, 69748);
    (69759, 69761); (69811, 69814); (69817, 69818); (69821, 69821);
    (69826, 69826); (69837, 69837); (69888, 69890); (69927, 69931);
    (69933, 69940); (70003, 70003); (70016, 70017); (70070, 70078);
    (70089, 70092); (70095, 70095); (70191, 70193); (70196, 70196);
    (70198, 70199); (70206, 70206); (70367, 70367); (70371, 70378);
    (70400, 70401); (70459, 70460); (70464, 70464); (70502, 70508);
    (70512, 70516); (70712, 70719); (70722, 70724); (70726, 70726);
    (70750, 70750); (70835, 70840); (70842, 70842); (70847, 70848);
    (70850, 70851); (71090, 71093); (71100, 71101); (71103, 71104);
    (71132, 71133); (71219, 71226); (71229, 71229); (71231, 71232);
    (71339, 71339); (71341, 71341); (71344, 71349); (71351, 71351);
    (71453, 71455); (71458, 71461); (71463, 71467); (71727, 71735);
    (71737, 71738); (71995, 71996); (71998, 71998); (72003, 72003);
    (72148, 72151); (72154, 72155); (72160, 72160); (72193, 72202);
    (72243, 72248); (72251, 72254); (72263, 72263); (72273, 72278);
    (72281, 72283); (72330, 72342); (72344, 72345); (72752, 72758);
    (72760, 72765); (72767, 72767); (72850, 72871); (72874, 72880);
    (72882, 72883); (72885, 72886); (73009, 73014); (73018, 73018);
    (73020, 73021); (73023, 73029); (73031, 73031); (73104, 73105);
    (73109, 73109); (73111, 73111); (73459, 73460); (78896, 78904);
    (92912, 92916); (92976, 92982); (92992, 92995); (94031, 94031);
    (94095, 94111); (94176, 94177); (94179, 94180); (110576, 110579);
    (110581, 110587); (110589, 110590); (113821, 113822); (113824, 113827);
    (118528, 118573); (118576, 118598); (119143, 119145); (119155, 119170);
    (119173, 119179); (119210, 119213); (119362, 119364); (121344, 121398);
    (121403, 121452); (121461, 121461); (121476, 121476); (121499, 121503);
    (121505, 121519); (122880, 122886); (122888, 122904); (122907, 122913);
    (122915, 122916); (122918, 122922); (123184, 123197); (123566, 123566);
    (123628, 123631); (125136, 125142); (125252, 125259); (127995, 127999);
    (917505, 917505); (917536, 917631); (917760, 917999)
  ]%N.

(** The code points with the property Cased. *)
Definition cased_ranges : list (N * N) :=
  [
    (65, 90); (97, 122); (170, 170); (181, 181);
    (186, 186); (192, 214); (216, 246); (248, 442);
    (444, 447); (452, 659); (661, 696); (704, 705);
    (736, 740); (837, 837); (880, 883); (886, 887);
    (890, 893); (895, 895); (902, 902); (904, 906);
    (908, 908); (910, 929); (931, 1013); (1015, 1153);
    (1162, 1327); (1329, 1366); (1376, 1416); (4256, 4293);
    (4295, 4295); (4301, 4301); (4304, 4346); (4349, 4351);
    (5024, 5109); (5112, 5117); (7296, 7304); (7312, 7354);
    (7357, 7359); (7424, 7615); (7680, 7957); (7960, 7965);
    (7968, 8005); (8008, 8013); (8016, 8023); (8025, 8025);
    (8027, 8027); (8029, 8029); (8031, 8061); (8064, 8116);
    (8118, 8124); (8126, 8126); (8130, 8132); (8134, 8140);
    (8144, 8147); (8150, 8155); (8160, 8172); (8178, 8180);
    (8182, 8188); (8305, 8305); (8319, 8319); (8336, 8348);
    (8450, 8450); (8455, 8455); (8458, 8467); (8469, 8469);
    (8473, 8477); (8484, 8484); (8486, 8486); (8488, 8488);
    (8490, 8493); (8495, 8500); (8505, 8505); (8508, 8511);
    (8517, 8521); (8526, 8526); (8544, 8575); (8579, 8580);
    (9398, 9449); (11264, 11492); (11499, 11502); (11506, 11507);
    (11520, 11557); (11559, 11559); (11565, 11565); (42560, 42605);
    (42624, 42653); (42786, 42887); (42891, 42894); (42896, 42954);
    (42960, 42961); (42963, 42963); (42965, 42969); (42997, 42998);
    (43000, 43002); (43824, 43866); (43868, 43880); (43888, 43967);
    (64256, 64262); (64275, 64279); (65313, 65338); (65345, 65370);
    (66560, 66639); (66736, 66771); (66776, 66811); (66928, 66938);
    (66940, 66954); (66956, 66962); (66964, 66965); (66967, 66977);
    (66979, 66993); (66995, 67001); (67003, 67004); (67456, 67456);
    (67459, 67461); (67463, 67504); (67506, 67514); (68736, 68786);
    (68800, 68850); (71840, 71903); (93760, 93823); (119808, 119892);
    (119894, 119964); (119966, 119967); (119970, 119970); (119973, 119974);
    (119977, 119980); (119982, 119993); (119995, 119995); (119997, 120003);
    (120005, 120069); (120071, 120074); (120077, 120084); (120086, 120092);
    (120094, 120121); (120123, 120126); (120128, 120132); (120134, 120134);
    (120138, 120144); (120146, 120485); (120488, 120512); (120514, 120538);
    (120540, 120570); (120572, 120596); (120598, 120628); (120630, 120654);
    (120656, 120686); (120688, 120712); (120714, 120744); (120746, 120770);
    (120772, 120779); (122624, 122633); (122635, 122654); (125184, 125251);
    (127280, 127305); (127312, 127337); (127344, 127369)
  ]%N.

Definition case_ignorable (c : N) : bool := in_ranges c case_ignorable_ranges.

Definition cased (c : N) : bool := in_ranges c cased_ranges.

Global Arguments lower_simple : simpl never.
Global Arguments lower_full : simpl never.
Global Arguments case_ignorable : simpl never.
Global Arguments cased : simpl never.

Fixpoint skip_case_ignorable (s : text) : text :=
  match s with
  | [] => []
  | c :: s' => if case_ignorable c then skip_case_ignorable s' else s
  end.

(** A capital sigma is in final position when a cased letter stands
    before it and none after it, case-ignorable code points skipped on
    both sides. [before] is the text in front of it, nearest first. *)
Definition final_sigma (before after : text) : bool :=
  match skip_case_ignorable before with
  | c :: _ => cased c
  | [] => false
  end
  && match skip_case_ignorable after with
     | c :: _ => negb (cased c)
     | [] => true
     end.

(** The lower-case form of [s], [before] being the text already passed,
    nearest first. *)
Fixpoint lower_from (before s : text) : text :=
  match s with
  | [] => []
  | c :: s' =>
      (if (c =? 931)%N
       then [if final_sigma before s' then 962%N else 963%N]
       else lower_full c)
      ++ lower_from (c :: before) s'
  end.

(** [s.lower()] *)
Definition lower (s : text) : text := lower_from [] s.

(** [s.lstrip()] *)
Fixpoint lstrip (s : text) : text :=
  match s with
  | [] => []
  | c :: s' => if isspace c then lstrip s' else s
  end.

(** [s.rstrip()] *)
Fixpoint rstrip (s : text) : text :=
  match s with
  | [] => []
  | c :: s' =>
      match rstrip s' with
      | [] => if isspace c then [] else [c]
      | r => c :: r
      end
  end.

(** [s.strip()] *)
Definition strip (s : text) : text := rstrip (lstrip s).

(** Truth value of a text in a condition: non-empty. *)
Definition truthy (s : text) : bool :=
  match s with
  | [] => false
  | _ :: _ => true
  end.

(** A text made of white space only. *)
Fixpoint blank (s : text) : bool :=
  match s with
  | [] => true
  | c :: s' => isspace c && blank s'
  end.

End PyStr.

(** ** Data model *)

(** [d.get(key, dflt)] on a field that may be missing. *)
Definition dict_get {A : Type} (field : option A) (dflt : A) : A :=
  match field with
  | Some v => v
  | None => dflt
  end.

(** An article of the persisted snapshot. *)
Record StoredArticle := {
  sa_title : option text;
  sa_citation_count : option Z;
  sa_year : option text;
  sa_link : option text;
  sa_authors : option text;
}.

(** Truth value of an article [dict] in a condition: it has some key. *)
Definition sa_truthy (a : StoredArticle) : bool :=
  match sa_title a, sa_citation_count a, sa_year a, sa_link a, sa_authors a with
  | None, None, None, None, None => false
  | _, _, _, _, _ => true
  end.

Record HistoryPoint := {
  hp_date : text;
  hp_total_citations : Z;
  hp_h_index : Z;
  hp_i10_index : Z;
}.

(** The persisted snapshot ([data/citations.json]). [s_last_checked] holds
    [Some None] for a JSON [null]. *)
Record Snapshot := {
  s_scholar_id : option text;
  s_name : option text;
  s_affiliation : option text;
  s_last_checked : option (option text);
  s_total_citations : option Z;
  s_h_index : option Z;
  s_i10_index : option Z;
  s_articles : option (list StoredArticle);
  s_history : option (list HistoryPoint);
}.

(** The ["cited_by"] entry of a fetched article: an object with an optional
    ["value"], or some other JSON value. *)
Inductive CitedBy :=
| CbObject (value : option Z)
| CbOther.

(** An article as returned by the remote listing. *)
Record FetchedArticle := {
  fa_title : option text;
  fa_cited_by : option CitedBy;
  fa_year : option text;
  fa_link : option text;
  fa_authors : option text;
}.

(** One row of [cited_by.table]: each metric is an optional object with an
    optional ["all"] entry. *)
Record MetricRow := {
  r_citations : option (option Z);
  r_h_index : option (option Z);
  r_i10_index : option (option Z);
}.

(** The author profile response. [p_table] is [cited_by.table] ([None] when
    ["cited_by"] or ["table"] is missing), [p_affiliations] is
    [author.affiliations]. *)
Record Profile := {
  p_error : option text;
  p_table : option (list MetricRow);
  p_affiliations : option text;
}.

Record Metrics := {
  m_total : Z;
  m_h : Z;
  m_i10 : Z;
}.

Record TotalDelta := {
  td_old : Z;
  td_new : Z;
  td_gained : Z;
}.

Record IndexDelta := {
  id_old : Z;
  id_new : Z;
}.

Record ArticleDelta := {
  d_title : text;
  d_old_count : Z;
  d_new_count : Z;
  d_gained : Z;
  d_year : text;
}.

Record Diff := {
  total_citations : TotalDelta;
  h_index : IndexDelta;
  i10_index : IndexDelta;
  articles_with_new_citations : list ArticleDelta;
  has_changes : bool;
}.

(** ** Diff / comparison logic *)

(** Body of the loop over [table]: a row overwrites each metric it has. *)
Definition metrics_row (acc : Metrics) (row : MetricRow) : Metrics :=
  {| m_total := match r_citations row with
                | Some o => dict_get o 0
                | None => m_total acc
                end;
     m_h := match r_h_index row with
            | Some o => dict_get o 0
            | None => m_h acc
            end;
     m_i10 := match r_i10_index row with
              | Some o => dict_get o 0
              | None => m_i10 acc
              end |}.

Definition current_metrics (profile : Profile) : Metrics :=
  foldl metrics_row {| m_total := 0; m_h := 0; m_i10 := 0 |}
        (dict_get (p_table profile) []).

(** Normalized title key: [title.strip().lower()]. *)
Definition norm_key (title : text) : text :=
  PyStr.lower (PyStr.strip title).

(** Body of the loop that builds [old_articles_map]. *)
Definition add_old_article (m : gmap text StoredArticle) (a : StoredArticle)
  : gmap text StoredArticle :=
  let key := norm_key (dict_get (sa_title a) []) in
  if PyStr.truthy key then <[key := a]> m else m.

Definition build_articles_map (olds : list StoredArticle)
  : gmap text StoredArticle :=
  foldl add_old_article ∅ olds.

Definition old_articles_map (old_data : Snapshot) : gmap text StoredArticle :=
  build_articles_map (dict_get (s_articles old_data) []).

(** [new_count] of a fetched article. *)
Definition new_count (a : FetchedArticle) : Z :=
  match fa_cited_by a with
  | Some (CbObject value) => dict_get value 0
  | Some CbOther => 0
  | None => 0
  end.

(** [old_count] that the loop assigns to a fetched article. *)
Definition old_count (m : gmap text StoredArticle) (a : FetchedArticle) : Z :=
  let title := PyStr.strip (dict_get (fa_title a) []) in
  let key := PyStr.lower title in
  match m !! key with
  | Some old_article =>
      if sa_truthy old_article
      then dict_get (sa_citation_count old_article) 0
      else 0
  | None => 0
  end.

(** The entry appended for an article whose count went up. *)
Definition delta_entry (m : gmap text StoredArticle) (a : FetchedArticle)
  : ArticleDelta :=
  {| d_title := PyStr.strip (dict_get (fa_title a) []);
     d_old_count := old_count m a;
     d_new_count := new_count a;
     d_gained := new_count a - old_count m a;
     d_year := dict_get (fa_year a) [] |}.

(** Body of the loop over the fetched articles. *)
Definition diff_article (m : gmap text StoredArticle)
    (new_citations_articles : list ArticleDelta) (a : FetchedArticle)
  : list ArticleDelta :=
  if new_count a >? old_count m a
  then new_citations_articles ++ [delta_entry m a]
  else new_citations_articles.

Definition compute_diff (old_data : Snapshot) (profile : Profile)
    (articles : list FetchedArticle) : Diff :=
  let new := current_metrics profile in
  let old_total := dict_get (s_total_citations old_data) 0 in
  let old_h := dict_get (s_h_index old_data) 0 in
  let old_i10 := dict_get (s_i10_index old_data) 0 in
  let m := old_articles_map old_data in
  {| total_citations :=
       {| td_old := old_total;
          td_new := m_total new;
          td_gained := m_total new - old_total |};
     h_index := {| id_old := old_h; id_new := m_h new |};
     i10_index := {| id_old := old_i10; id_new := m_i10 new |};
     articles_with_new_citations := foldl (diff_article m) [] articles;
     has_changes := m_total new >? old_total |}.

(** ** Profile fetcher: the pagination loop *)

Definition page_size : Z := 100.

(** The [while True] loop of [fetch_all_articles]. [remote start] is the
    ["articles"] list of the response to the request with offset [start]
    (empty when the key is missing). The loop ends because [start] grows by
    [page_size] at each turn and a turn that brings it above 500 is the
    last. *)
Equations? fetch_loop (remote : Z -> list FetchedArticle)
    (all_articles : list FetchedArticle) (start : Z)
  : list FetchedArticle by wf (Z.to_nat (501 - start)) lt :=
  fetch_loop remote all_articles start with remote start => {
    | [] := all_articles;
    | a :: articles with decide (start + page_size > 500) => {
        | left _ := all_articles ++ a :: articles;
        | right _ := fetch_loop remote (all_articles ++ a :: articles)
                                (start + page_size) } }.
Proof. unfold page_size in *. lia. Qed.

Definition fetch_all_articles (remote : Z -> list FetchedArticle)
  : list FetchedArticle :=
  fetch_loop remote [] 0.

(** ** Notifier: the rows of the e-mail table *)

(** Place [x] in a list sorted by [gained], largest first: behind the
    entries that gained strictly more, before those that gained as much. *)
Fixpoint insert_by_gained (x : ArticleDelta) (l : list ArticleDelta)
  : list ArticleDelta :=
  match l with
  | [] => [x]
  | y :: l' =>
      if d_gained x <? d_gained y
      then y :: insert_by_gained x l'
      else x :: l
  end.

(** [sorted(articles, key=lambda x: x["gained"], reverse=True)]: a stable
    sort, entries with the same [gained] keep their order. *)
Definition sorted_by_gained_desc (articles : list ArticleDelta)
  : list ArticleDelta :=
  foldr insert_by_gained [] articles.

(** [articles_sorted] in [build_email_html]. *)
Definition articles_sorted (diff : Diff) : list ArticleDelta :=
  sorted_by_gained_desc (articles_with_new_citations diff).

(** The entries that [build_email_html] renders as table rows, in the order
    of the rows: [articles_sorted[:20]]. The HTML text itself is string
    templating and is left out. *)
Definition build_email_html_rows (diff : Diff) : list ArticleDelta :=
  take 20 (articles_sorted diff).

(** ** Dashboard data generation *)

(** [l[-n:]] for a positive [n]: the last [n] elements, the whole list when
    it is shorter. *)
Definition py_last {A : Type} (n : nat) (l : list A) : list A :=
  drop (length l - n) l.

Definition SCHOLAR_ID : text := txt "R_1o4RIAAAAJ".
Definition SCHOLAR_NAME : text := txt "Negar Arabzadeh".
Definition SCHOLAR_URL : text :=
  (txt "https://scholar.google.com/citations?user=R_1o4RIAAAAJ&hl=en").

Record LatestDiff := {
  ld_gained : Z;
  ld_articles_count : nat;
}.

Record DashboardData := {
  db_name : text;
  db_affiliation : text;
  db_scholar_url : text;
  db_total_citations : Z;
  db_h_index : Z;
  db_i10_index : Z;
  db_last_checked : option text;
  db_articles : list StoredArticle;
  db_history : list HistoryPoint;
  db_latest_diff : option LatestDiff;
}.

(** The [dashboard_data] object that [generate_dashboard_data] writes to
    [docs/data.json]; [None] is the [KeyError] of an indexed key that is
    missing. *)
Definition generate_dashboard_data (data : Snapshot) (diff : Diff)
  : option DashboardData :=
  name ← s_name data;
  total ← s_total_citations data;
  h ← s_h_index data;
  i10 ← s_i10_index data;
  last_checked ← s_last_checked data;
  articles ← s_articles data;
  Some {| db_name := name;
          db_affiliation := dict_get (s_affiliation data) [];
          db_scholar_url := SCHOLAR_URL;
          db_total_citations := total;
          db_h_index := h;
          db_i10_index := i10;
          db_last_checked := last_checked;
          db_articles := take 50 articles;
          db_history := py_last 90 (dict_get (s_history data) []);
          db_latest_diff :=
            if has_changes diff
            then Some {| ld_gained := td_gained (total_citations diff);
                         ld_articles_count :=
                           length (articles_with_new_citations diff) |}
            else None |}.

(** ** Main *)

(** What a run reads from outside: the process environment, the remote
    service and the clock. *)
Record Env := {
  SERPAPI_KEY : text;
  SENDER_EMAIL : text;
  SENDER_PASSWORD : text;
  remote_profile : Profile;
  remote_articles : Z -> list FetchedArticle;
  now : text;
}.

(** What a run leaves behind: the two JSON files and the mails sent. *)
Record World := {
  data_file : option Snapshot;
  dashboard_file : option DashboardData;
  outbox : list Diff;
}.

Inductive Outcome :=
| Exited                   (* [sys.exit(1)], nothing written *)
| Raised (w : World)       (* an exception after the snapshot was saved *)
| Completed (w : World).

Definition load_previous_data (w : World) : Snapshot :=
  match data_file w with
  | Some data => data
  | None =>
      {| s_scholar_id := Some SCHOLAR_ID;
         s_name := Some SCHOLAR_NAME;
         s_affiliation := None;
         s_last_checked := Some None;
         s_total_citations := Some 0;
         s_h_index := Some 0;
         s_i10_index := Some 0;
         s_articles := Some [];
         s_history := Some [] |}
  end.

Definition save_data (data : Snapshot) (w : World) : World :=
  {| data_file := Some data;
     dashboard_file := dashboard_file w;
     outbox := outbox w |}.

(** [fetch_scholar_profile]: [None] is [sys.exit(1)]. Transport errors are
    not modelled. *)
Definition fetch_scholar_profile (env : Env) : option Profile :=
  if negb (PyStr.truthy (SERPAPI_KEY env)) then None
  else match p_error (remote_profile env) with
       | Some _ => None
       | None => Some (remote_profile env)
       end.

(** [send_email]: skipped without credentials, else one mail built from the
    diff. Delivery failures are not modelled. *)
Definition send_email (env : Env) (diff : Diff) (w : World) : World :=
  if negb (PyStr.truthy (SENDER_EMAIL env))
     || negb (PyStr.truthy (SENDER_PASSWORD env))
  then w
  else {| data_file := data_file w;
          dashboard_file := dashboard_file w;
          outbox := outbox w ++ [diff] |}.

Definition stored_article (a : FetchedArticle) : StoredArticle :=
  {| sa_title := Some (dict_get (fa_title a) []);
     sa_citation_count := Some (new_count a);
     sa_year := Some (dict_get (fa_year a) []);
     sa_link := Some (dict_get (fa_link a) []);
     sa_authors := Some (dict_get (fa_authors a) []) |}.

(** Step 5 of [main]: the snapshot that is saved, history already cut to
    its last 365 entries. *)
Definition new_data (old_data : Snapshot) (profile : Profile)
    (articles : list FetchedArticle) (now : text) : Snapshot :=
  let current := current_metrics profile in
  let history :=
    dict_get (s_history old_data) []
    ++ [ {| hp_date := now;
            hp_total_citations := m_total current;
            hp_h_index := m_h current;
            hp_i10_index := m_i10 current |} ] in
  {| s_scholar_id := Some SCHOLAR_ID;
     s_name := Some SCHOLAR_NAME;
     s_affiliation := Some (dict_get (p_affiliations profile) (txt "UC Berkeley"));
     s_last_checked := Some (Some now);
     s_total_citations := Some (m_total current);
     s_h_index := Some (m_h current);
     s_i10_index := Some (m_i10 current);
     s_articles := Some (map stored_article articles);
     s_history := Some (py_last 365 history) |}.

(** One run. The log lines and the optional step summary are left out. *)
Definition main (env : Env) (w : World) : Outcome :=
  let old_data := load_previous_data w in
  match fetch_scholar_profile env with
  | None => Exited
  | Some profile =>
      let articles := fetch_all_articles (remote_articles env) in
      let diff := compute_diff old_data profile articles in
      let data := new_data old_data profile articles (now env) in
      let w := save_data data w in
      match generate_dashboard_data data diff with
      | None => Raised w
      | Some dashboard_data =>
          let w := {| data_file := data_file w;
                      dashboard_file := Some dashboard_data;
                      outbox := outbox w |} in
          Completed (if has_changes diff then send_email env diff w else w)
      end
  end.

(** ** Titles that differ by surrounding white space and letter case *)

(** The white-space code points of Unicode. *)
Definition white_space_points : text :=
  [9; 10; 11; 12; 13; 28; 29; 30; 31; 32; 133; 160; 5760;
   8192; 8193; 8194; 8195; 8196; 8197; 8198; 8199; 8200; 8201; 8202;
   8232; 8233; 8239; 8287; 12288]%N.

Definition white (c : N) : bool := existsb (N.eqb c) white_space_points.

(** [l] is the lower-case form of [u], and another code point. *)
Definition case_pair (u l : N) : bool :=
  match PyStr.lower_full u with
  | [x] => (x =? l)%N && negb (u =? l)%N
  | _ => false
  end.

(** The same letter, in whatever case. *)
Definition same_letter (c1 c2 : N) : bool :=
  (c1 =? c2)%N || case_pair c1 c2 || case_pair c2 c1.

(** The same letter in whatever case, where a capital sigma (U+03A3) only
    stands for itself. *)
Definition same_letter_but_sigma (c1 c2 : N) : bool :=
  (c1 =? c2)%N
  || negb (c1 =? 931)%N && negb (c2 =? 931)%N
     && (case_pair c1 c2 || case_pair c2 c1).

(** Two texts of the same length, code point by code point related by
    [letter]. *)
Fixpoint case_variant (letter : N → N → bool) (s1 s2 : text) : bool :=
  match s1, s2 with
  | [], [] => true
  | c1 :: s1', c2 :: s2' => letter c1 c2 && case_variant letter s1' s2'
  | _, _ => false
  end.

(** [t1] and [t2] are the same text up to [letter], each wrapped in its
    own leading and trailing white space. *)
Definition title_variant_by (letter : N → N → bool) (t1 t2 : text) : Prop :=
  ∃ pre1 core1 suf1 pre2 core2 suf2,
    t1 = pre1 ++ core1 ++ suf1 ∧
    t2 = pre2 ++ core2 ++ suf2 ∧
    forallb white pre1 = true ∧ forallb white suf1 = true ∧
    forallb white pre2 = true ∧ forallb white suf2 = true ∧
    case_variant letter core1 core2 = true.

(** Titles that differ by surrounding white space and letter case only. *)
Definition title_variant : text → text → Prop :=
  title_variant_by same_letter.

(** The same, no capital sigma standing against a small one. *)
Definition title_variant_but_sigma : text → text → Prop :=
  title_variant_by same_letter_but_sigma.

(** The Greek word for street in capitals and in small letters, and the
    lower-case form of the capitals, with its final sigma. *)
Definition odos_capitals : text := [927; 916; 927; 931]%N.
Definition odos_small : text := [959; 948; 959; 963]%N.
Definition odos_final : text := [959; 948; 959; 962]%N.

(** What the proofs need of a pair of the lower-case table: neither code
    point is white space, both are cased or not, case-ignorable or not,
    alike, and the lower-case form is its own lower-case form and is
    neither U+0130 nor a capital sigma. *)
Definition pair_ok (u l : N) : bool :=
  negb (PyStr.isspace u) && negb (PyStr.isspace l)
  && Bool.eqb (PyStr.cased u) (PyStr.cased l)
  && Bool.eqb (PyStr.case_ignorable u) (PyStr.case_ignorable l)
  && (PyStr.lower_simple l =? l)%N
  && negb (l =? 304)%N && negb (l =? 931)%N && negb (u =? 304)%N.

(** The lookup key of a stored article and of a fetched article. *)
Definition stored_key (o : StoredArticle) : text :=
  norm_key (dict_get (sa_title o) []).

Definition fetched_key (a : FetchedArticle) : text :=
  norm_key (dict_get (fa_title a) []).

(** ** Sample data *)

Definition stored (title : text) (count : Z) : StoredArticle :=
  {| sa_title := Some title;
     sa_citation_count := Some count;
     sa_year := Some (txt "2020");
     sa_link := Some [];
     sa_authors := Some [] |}.

Definition fetched (title : text) (count : Z) : FetchedArticle :=
  {| fa_title := Some title;
     fa_cited_by := Some (CbObject (Some count));
     fa_year := Some (txt "2020");
     fa_link := None;
     fa_authors := None |}.

Definition snapshot_of (total : Z) (articles : list StoredArticle)
    (history : list HistoryPoint) : Snapshot :=
  {| s_scholar_id := Some SCHOLAR_ID;
     s_name := Some SCHOLAR_NAME;
     s_affiliation := Some (txt "UC Berkeley");
     s_last_checked := Some (Some (txt "2024-01-01T00:00:00+00:00"));
     s_total_citations := Some total;
     s_h_index := Some 3;
     s_i10_index := Some 1;
     s_articles := Some articles;
     s_history := Some history |}.

(** A profile response with the three usual rows of [cited_by.table]. *)
Definition profile_of (total h i10 : Z) : Profile :=
  {| p_error := None;
     p_table :=
       Some [ {| r_citations := Some (Some total);
                 r_h_index := None; r_i10_index := None |};
              {| r_citations := None;
                 r_h_index := Some (Some h); r_i10_index := None |};
              {| r_citations := None;
                 r_h_index := None; r_i10_index := Some (Some i10) |} ];
     p_affiliations := Some (txt "UC Berkeley") |}.

(** [x] may stand before [y] in a list sorted by [gained], largest first. *)
Definition gained_ge (x y : ArticleDelta) : Prop :=
  d_gained y ≤ d_gained x.

(** The history point that a run appends. *)
Definition history_point (profile : Profile) (now : text) : HistoryPoint :=
  {| hp_date := now;
     hp_total_citations := m_total (current_metrics profile);
     hp_h_index := m_h (current_metrics profile);
     hp_i10_index := m_i10 (current_metrics profile) |}.

(** A remote listing that answers every request with a page of 100
    articles. *)
Definition full_page (start : Z) : list FetchedArticle :=
  map (λ i, fetched (txt "t") (start + Z.of_nat i)) (seq 0 100).

(** A run over a stored history of 365 points. *)
Definition sample_env : Env :=
  {| SERPAPI_KEY := txt "key";
     SENDER_EMAIL := [];
     SENDER_PASSWORD := [];
     remote_profile := profile_of 103 3 1;
     remote_articles :=
       λ start, if decide (start = 0)
                then [fetched (txt "A") 7; fetched (txt "B") 1]
                else [];
     now := txt "2024-06-01T00:00:00+00:00" |}.

Definition sample_world : World :=
  {| data_file :=
       Some (snapshot_of 100 [stored (txt "A") 5]
               (replicate 365
                  (history_point (profile_of 100 3 1)
                                 (txt "2024-01-01T00:00:00+00:00"))));
     dashboard_file := None;
     outbox := [] |}.

Definition sample_world_after : World :=
  match main sample_env sample_world with
  | Completed w' => w'
  | _ => sample_world
  end.

(** ** Runs, pages and entries used in the statements below *)

(** The entry of an article that has no counterpart in the old snapshot. *)
Definition unseen_entry (a : FetchedArticle) : ArticleDelta :=
  {| d_title := PyStr.strip (dict_get (fa_title a) []);
     d_old_count := 0;
     d_new_count := new_count a;
     d_gained := new_count a;
     d_year := dict_get (fa_year a) [] |}.

(** The offsets of [n + 1] requests in a row, from [start] on. *)
Fixpoint offsets_from (n : nat) (start : Z) : list Z :=
  start :: match n with
           | O => []
           | S n' => offsets_from n' (start + page_size)
           end.

(** The offsets that the pagination loop can ask for. *)
Definition page_offsets : list Z := offsets_from 5 0.

(** The pages in front of the first empty one, joined. *)
Fixpoint pages_until_empty (pages : list (list FetchedArticle))
  : list FetchedArticle :=
  match pages with
  | [] => []
  | [] :: _ => []
  | page :: rest => page ++ pages_until_empty rest
  end.

(** A listing that serves [all] in pages of 100, by offset. *)
Definition paged (all : list FetchedArticle) (start : Z)
  : list FetchedArticle :=
  take 100 (drop (Z.to_nat start) all).

(** The profile request of [env] goes through: there is a key and the
    response carries no error. *)
Definition env_ok (env : Env) : bool :=
  PyStr.truthy (SERPAPI_KEY env)
  && bool_decide (p_error (remote_profile env) = None).

Definition has_credentials (env : Env) : bool :=
  PyStr.truthy (SENDER_EMAIL env) && PyStr.truthy (SENDER_PASSWORD env).

(** The diff and the snapshot that a run of [env] on [w] computes. *)
Definition run_diff (env : Env) (w : World) : Diff :=
  compute_diff (load_previous_data w) (remote_profile env)
               (fetch_all_articles (remote_articles env)).

Definition run_data (env : Env) (w : World) : Snapshot :=
  new_data (load_previous_data w) (remote_profile env)
           (fetch_all_articles (remote_articles env)) (now env).

(** The files and mails after a run; a run that exits leaves them alone. *)
Definition run (env : Env) (w : World) : World :=
  match main env w with
  | Completed w' => w'
  | Raised w' => w'
  | Exited => w
  end.

Definition runs (envs : list Env) (w : World) : World :=
  foldl (λ w env, run env w) w envs.

(** The history that the next run starts from. *)
Definition history_of (w : World) : list HistoryPoint :=
  dict_get (s_history (load_previous_data w)) [].

(** A table in which two rows carry ["citations"]. *)
Definition two_totals_profile : Profile :=
  {| p_error := None;
     p_table :=
       Some [ {| r_citations := Some (Some 7);
                 r_h_index := None; r_i10_index := None |};
              {| r_citations := Some (Some 9);
                 r_h_index := None; r_i10_index := None |};
              {| r_citations := None;
                 r_h_index := Some None; r_i10_index := None |} ];
     p_affiliations := None |}.

(** The sample run with sender credentials. *)
Definition sample_env_mail : Env :=
  {| SERPAPI_KEY := SERPAPI_KEY sample_env;
     SENDER_EMAIL := txt "sender@example.org";
     SENDER_PASSWORD := txt "secret";
     remote_profile := remote_profile sample_env;
     remote_articles := remote_articles sample_env;
     now := now sample_env |}.

(** A first run: no file yet. *)
Definition empty_world : World :=
  {| data_file := None; dashboard_file := None; outbox := [] |}.

(** The citation count that the table holds under a key, if any. *)
Definition count_under (m : gmap text StoredArticle) (k : text)
  : option Z :=
  (λ o, dict_get (sa_citation_count o) 0) <$> m !! k.

(** Two stored articles with the same key and the same count. *)
Definition same_key_and_count (o o' : StoredArticle) : Prop :=
  stored_key o = stored_key o' ∧
  dict_get (sa_citation_count o) 0 = dict_get (sa_citation_count o') 0.

(** The sample snapshot with titles in another case, other years and no
    links. *)
Definition respelled_articles : list StoredArticle :=
  [ {| sa_title := Some (txt "  FOO bar "); sa_citation_count := Some 5;
       sa_year := None; sa_link := None; sa_authors := None |};
    {| sa_title := None; sa_citation_count := None;
       sa_year := Some (txt "1999"); sa_link := None; sa_authors := None |} ].

(** * Properties *)

(** ** String methods *)

Section StringFacts.
Import PyStr.

(** The white-space code points are white space for [str.isspace]. *)
Lemma white_isspace c : white c = true → isspace c = true.
Proof.
  unfold white, white_space_points. cbn [existsb].
  rewrite !orb_true_iff. intros Hc.
  repeat destruct Hc as [Hc|Hc]; try done;
    apply N.eqb_eq in Hc; subst c; reflexivity.
Qed.

Lemma forallb_white_blank s : forallb white s = true → blank s = true.
Proof.
  induction s as [|c s IH]; [done|]. cbn [forallb blank].
  intros [Hc%white_isspace Hs]%andb_true_iff. by rewrite Hc, IH.
Qed.

Lemma lower_full_other c : c ≠ 304%N → lower_full c = [lower_simple c].
Proof. intros Hc%N.eqb_neq. unfold lower_full. by rewrite Hc. Qed.

Lemma lower_simple_in_pairs c :
  lower_simple c ≠ c → In (c, lower_simple c) lower_pairs.
Proof.
  unfold lower_simple.
  destruct (find _ lower_pairs) as [[u l]|] eqn:Hfind; [|done].
  intros _. apply find_some in Hfind as [Hin Hu].
  cbn [fst snd] in *. by apply N.eqb_eq in Hu as ->.
Qed.

Lemma lower_pairs_ok :
  forallb (λ p, pair_ok (fst p) (snd p)) lower_pairs = true.
Proof. vm_compute. reflexivity. Qed.

Lemma case_pair_lower u l :
  case_pair u l = true → lower_full u = [l] ∧ u ≠ l ∧ u ≠ 304%N.
Proof.
  unfold case_pair. intros Hpair.
  assert (u ≠ 304%N) as Hu.
  { intros ->. by vm_compute in Hpair. }
  destruct (lower_full u) as [|x [|? ?]]; [done| |done].
  apply andb_true_iff in Hpair as [->%N.eqb_eq Hne%negb_true_iff].
  by apply N.eqb_neq in Hne.
Qed.

Lemma case_pair_ok u l : case_pair u l = true → pair_ok u l = true.
Proof.
  intros (Hlow & Hne & Hu)%case_pair_lower.
  rewrite lower_full_other in Hlow by done. injection Hlow as <-.
  pose proof lower_pairs_ok as Hall. rewrite forallb_forall in Hall.
  apply (Hall (u, lower_simple u)), lower_simple_in_pairs. congruence.
Qed.

Lemma case_pair_facts u l :
  case_pair u l = true →
  isspace u = isspace l ∧ cased u = cased l ∧
  case_ignorable u = case_ignorable l ∧ lower_full u = lower_full l.
Proof.
  intros Hpair. pose proof (case_pair_ok _ _ Hpair) as Hok.
  apply case_pair_lower in Hpair as (Hlow & _ & _).
  unfold pair_ok in Hok.
  apply andb_true_iff in Hok
    as [[[[[[[Hu%negb_true_iff Hl%negb_true_iff]%andb_true_iff
              Hcased%Bool.eqb_prop]%andb_true_iff
             Hign%Bool.eqb_prop]%andb_true_iff
            Hfix%N.eqb_eq]%andb_true_iff
           Hl304%negb_true_iff]%andb_true_iff _]%andb_true_iff _].
  apply N.eqb_neq in Hl304.
  repeat split; [congruence | done | done |].
  by rewrite Hlow, lower_full_other, Hfix.
Qed.

(** A letter and its form in the other case are alike white space or
    not, cased or not, case-ignorable or not, and have one lower-case
    form; neither is a capital sigma unless both are. *)
Lemma same_letter_but_sigma_facts c1 c2 :
  same_letter_but_sigma c1 c2 = true →
  isspace c1 = isspace c2 ∧ cased c1 = cased c2 ∧
  case_ignorable c1 = case_ignorable c2 ∧
  (c1 =? 931)%N = (c2 =? 931)%N ∧ lower_full c1 = lower_full c2.
Proof.
  unfold same_letter_but_sigma.
  intros [Heq%N.eqb_eq | Hpair]%orb_true_iff; [by subst|].
  apply andb_true_iff in Hpair
    as [[H1%negb_true_iff H2%negb_true_iff]%andb_true_iff Hpair].
  rewrite H1, H2.
  apply orb_true_iff in Hpair as [Hpair|Hpair];
    apply case_pair_facts in Hpair as (? & ? & ? & ?); by repeat split.
Qed.

Local Abbreviation variant :=
  (Forall2 (λ c1 c2, same_letter_but_sigma c1 c2 = true)).

Lemma case_variant_Forall2 letter s1 : ∀ s2,
  case_variant letter s1 s2 = true →
  Forall2 (λ c1 c2, letter c1 c2 = true) s1 s2.
Proof.
  induction s1 as [|c1 s1 IH]; intros [|c2 s2]; cbn [case_variant];
    intros Hs; try discriminate Hs; [constructor|].
  apply andb_true_iff in Hs as [Hc Hs]. constructor; auto.
Qed.

Lemma lstrip_variant s1 s2 : variant s1 s2 → variant (lstrip s1) (lstrip s2).
Proof.
  induction 1 as [|c1 c2 s1 s2 Hc Hs IH]; cbn [lstrip]; [constructor|].
  destruct (same_letter_but_sigma_facts _ _ Hc) as (-> & _).
  destruct (isspace c2); [done | by constructor].
Qed.

Lemma rstrip_variant s1 s2 : variant s1 s2 → variant (rstrip s1) (rstrip s2).
Proof.
  induction 1 as [|c1 c2 s1 s2 Hc Hs IH]; cbn [rstrip]; [constructor|].
  destruct (same_letter_but_sigma_facts _ _ Hc) as (Hspace & _).
  inversion IH as [Hr1 Hr2 | x1 x2 r1 r2 Hx Hr Hr1 Hr2].
  - rewrite Hspace. destruct (isspace c2); repeat constructor; done.
  - repeat constructor; done.
Qed.

Lemma skip_case_ignorable_variant s1 s2 :
  variant s1 s2 → variant (skip_case_ignorable s1) (skip_case_ignorable s2).
Proof.
  induction 1 as [|c1 c2 s1 s2 Hc Hs IH]; cbn [skip_case_ignorable];
    [constructor|].
  destruct (same_letter_but_sigma_facts _ _ Hc) as (_ & _ & -> & _).
  destruct (case_ignorable c2); [done | by constructor].
Qed.

Lemma final_sigma_variant b1 b2 s1 s2 :
  variant b1 b2 → variant s1 s2 → final_sigma b1 s1 = final_sigma b2 s2.
Proof.
  intros Hb%skip_case_ignorable_variant Hs%skip_case_ignorable_variant.
  unfold final_sigma.
  inversion Hb as [Hb1 Hb2 | x1 x2 ? ? Hx _ Hb1 Hb2];
    inversion Hs as [Hs1 Hs2 | y1 y2 ? ? Hy _ Hs1 Hs2]; try done.
  - by destruct (same_letter_but_sigma_facts _ _ Hx) as (_ & -> & _).
  - destruct (same_letter_but_sigma_facts _ _ Hx) as (_ & -> & _).
    by destruct (same_letter_but_sigma_facts _ _ Hy) as (_ & -> & _).
Qed.

Lemma lower_from_variant s1 s2 :
  variant s1 s2 →
  ∀ b1 b2, variant b1 b2 → lower_from b1 s1 = lower_from b2 s2.
Proof.
  induction 1 as [|c1 c2 s1 s2 Hc Hs IH]; intros b1 b2 Hb;
    cbn [lower_from]; [done|].
  destruct (same_letter_but_sigma_facts _ _ Hc) as (_ & _ & _ & -> & ->).
  rewrite (final_sigma_variant b1 b2 s1 s2) by done.
  by rewrite (IH (c1 :: b1) (c2 :: b2)) by by constructor.
Qed.

Lemma lstrip_white_app pre s :
  forallb white pre = true → lstrip (pre ++ s) = lstrip s.
Proof.
  induction pre as [|c pre IH]; cbn [forallb app lstrip]; [done|].
  intros [Hc%white_isspace Hpre]%andb_true_iff. rewrite Hc. auto.
Qed.

Lemma rstrip_blank s : blank s = true → rstrip s = [].
Proof.
  induction s as [|c s IH]; cbn [blank rstrip]; [done|].
  intros [-> Hs]%andb_true_iff. by rewrite IH.
Qed.

Lemma lstrip_blank s : blank s = true → lstrip s = [].
Proof.
  induction s as [|c s IH]; cbn [blank lstrip]; [done|].
  intros [-> Hs]%andb_true_iff. auto.
Qed.

Lemma rstrip_app_blank s suf :
  blank suf = true → rstrip (s ++ suf) = rstrip s.
Proof.
  intros Hsuf. induction s as [|c s IH]; cbn [app rstrip].
  - by apply rstrip_blank.
  - by rewrite IH.
Qed.

Lemma strip_app_blank s suf :
  blank suf = true → strip (s ++ suf) = strip s.
Proof.
  intros Hsuf. unfold strip. induction s as [|c s IH]; cbn [app lstrip].
  - by rewrite (lstrip_blank _ Hsuf).
  - destruct (isspace c); [done|].
    apply (rstrip_app_blank (c :: s) suf Hsuf).
Qed.

Lemma strip_wrapped pre core suf :
  forallb white pre = true → forallb white suf = true →
  strip (pre ++ core ++ suf) = strip core.
Proof.
  intros Hpre Hsuf. unfold strip at 1.
  rewrite (lstrip_white_app _ _ Hpre).
  by apply (strip_app_blank core suf), forallb_white_blank.
Qed.

Lemma strip_variant s1 s2 : variant s1 s2 → variant (strip s1) (strip s2).
Proof. intros Hs. by apply rstrip_variant, lstrip_variant. Qed.

End StringFacts.

Example strip_example : PyStr.strip (txt "  Foo Bar  ") = txt "Foo Bar".
Proof. vm_compute. reflexivity. Qed.

Example strip_blank_example : PyStr.strip (txt "   ") = [].
Proof. vm_compute. reflexivity. Qed.

Example norm_key_example : norm_key (txt " Foo Bar ") = txt "foo bar".
Proof. vm_compute. reflexivity. Qed.

(** The table of one-code-point lower-case forms has 1432 entries. *)
Example lower_pairs_count : length PyStr.lower_pairs = 1432%nat.
Proof. vm_compute. reflexivity. Qed.

(** The capital sigma at the end of a word becomes a final sigma. *)
Example lower_final_sigma_example : PyStr.lower odos_capitals = odos_final.
Proof. vm_compute. reflexivity. Qed.

(** U+0130 becomes two code points. *)
Example lower_dotted_capital_i_example :
  PyStr.lower [304; 115]%N = [105; 775; 115]%N.
Proof. vm_compute. reflexivity. Qed.

Lemma norm_key_variant t1 t2 :
  title_variant_but_sigma t1 t2 → norm_key t1 = norm_key t2.
Proof.
  intros (pre1 & core1 & suf1 & pre2 & core2 & suf2 &
          -> & -> & Hp1 & Hs1 & Hp2 & Hs2 & Hcore).
  unfold norm_key, PyStr.lower.
  rewrite !strip_wrapped by done.
  apply lower_from_variant; [|constructor].
  by apply strip_variant, case_variant_Forall2.
Qed.

(** ** The lookup table of stored articles *)

Section ArticlesMap.
Implicit Types (m : gmap text StoredArticle) (o : StoredArticle).
Implicit Types (olds : list StoredArticle) (k : text).

Lemma truthy_nonempty k : PyStr.truthy k = true ↔ k ≠ [].
Proof. by destruct k. Qed.

Lemma lookup_add_old_article m o k :
  add_old_article m o !! k =
    if decide (stored_key o = k ∧ k ≠ []) then Some o else m !! k.
Proof.
  unfold add_old_article. fold (stored_key o).
  destruct (PyStr.truthy (stored_key o)) eqn:Ht.
  - apply truthy_nonempty in Ht. rewrite lookup_insert.
    destruct (decide (stored_key o = k)) as [<-|Hne].
    + by rewrite decide_True.
    + rewrite decide_False; [done | by intros [? _]].
  - destruct (decide _) as [[<- Hk]|]; [|done].
    apply truthy_nonempty in Hk. congruence.
Qed.

Lemma foldl_add_lookup_absent olds : ∀ m k,
  k ∉ map stored_key olds →
  foldl add_old_article m olds !! k = m !! k.
Proof.
  induction olds as [|o olds IH]; intros m k Hk; simpl; [done|].
  simpl in Hk. apply not_elem_of_cons in Hk as [Hne Hk].
  rewrite IH, lookup_add_old_article by done.
  rewrite decide_False; [done | by intros [? _]].
Qed.

Lemma foldl_add_lookup_Some olds : ∀ m k o,
  foldl add_old_article m olds !! k = Some o →
  m !! k = Some o ∨ (stored_key o = k ∧ k ≠ [] ∧ o ∈ olds).
Proof.
  induction olds as [|o' olds IH]; intros m k o Hlk; simpl in *; [by left|].
  apply IH in Hlk as [Hlk | (? & ? & ?)].
  - rewrite lookup_add_old_article in Hlk.
    destruct (decide _) as [Hd|Hd] in Hlk.
    + injection Hlk as ->. right. destruct Hd. repeat split; [done..|].
      apply list_elem_of_here.
    + by left.
  - right. repeat split; [done..|]. by apply list_elem_of_further.
Qed.

Lemma foldl_add_skip_empty olds : ∀ m,
  foldl add_old_article m olds =
  foldl add_old_article m (filter (λ o, stored_key o ≠ []) olds).
Proof.
  induction olds as [|o olds IH]; intros m; [done|].
  rewrite filter_cons. destruct (decide (stored_key o ≠ [])) as [Hk|Hk]; simpl.
  - apply IH.
  - rewrite <- IH. f_equal. unfold add_old_article. fold (stored_key o).
    apply dec_stable in Hk. by rewrite Hk.
Qed.

Lemma build_articles_map_absent olds k :
  k ∉ map stored_key olds → build_articles_map olds !! k = None.
Proof.
  intros Hk. unfold build_articles_map.
  by rewrite foldl_add_lookup_absent, lookup_empty.
Qed.

Lemma build_articles_map_last before o after :
  stored_key o ≠ [] →
  stored_key o ∉ map stored_key after →
  build_articles_map (before ++ o :: after) !! stored_key o = Some o.
Proof.
  intros Hne Hafter. unfold build_articles_map.
  rewrite foldl_app. simpl.
  rewrite foldl_add_lookup_absent, lookup_add_old_article by done.
  by rewrite decide_True.
Qed.

Lemma build_articles_map_Some olds k o :
  build_articles_map olds !! k = Some o →
  stored_key o = k ∧ k ≠ [] ∧ o ∈ olds.
Proof.
  intros [Hlk | ?]%foldl_add_lookup_Some; [|done].
  by rewrite lookup_empty in Hlk.
Qed.

(** An article kept in the table has a title, so as a [dict] it is not
    empty and the test [if old_article:] lets it through. *)
Lemma build_articles_map_truthy olds k o :
  build_articles_map olds !! k = Some o → sa_truthy o = true.
Proof.
  intros (Hk & Hne & _)%build_articles_map_Some.
  unfold stored_key, sa_truthy in *.
  destruct (sa_title o); [done|]. cbv in Hk. congruence.
Qed.

Lemma old_count_lookup olds a :
  old_count (build_articles_map olds) a =
    match build_articles_map olds !! fetched_key a with
    | Some o => dict_get (sa_citation_count o) 0
    | None => 0
    end.
Proof.
  unfold old_count. fold (norm_key (dict_get (fa_title a) [])).
  fold (fetched_key a).
  destruct (build_articles_map olds !! fetched_key a) as [o|] eqn:Hlk;
    [|done].
  by rewrite (build_articles_map_truthy _ _ _ Hlk).
Qed.

End ArticlesMap.

(** ** The loop over the fetched articles *)

Lemma foldl_diff_article m (articles : list FetchedArticle) :
  ∀ acc,
    foldl (diff_article m) acc articles =
    acc ++ map (delta_entry m)
               (filter (λ a, old_count m a < new_count a) articles).
Proof.
  induction articles as [|a articles IH]; intros acc; simpl.
  - by rewrite app_nil_r.
  - rewrite IH, filter_cons. unfold diff_article.
    destruct (Z.gtb_spec (new_count a) (old_count m a));
      case_decide; try lia; [|done].
    by rewrite <- app_assoc.
Qed.

Lemma articles_with_new_citations_filter old_data profile articles :
  articles_with_new_citations (compute_diff old_data profile articles) =
  map (delta_entry (old_articles_map old_data))
      (filter (λ a, old_count (old_articles_map old_data) a < new_count a)
              articles).
Proof. unfold compute_diff. simpl. by rewrite foldl_diff_article. Qed.

(** ** The diff engine *)

(** The worked example of the specification: totals 100 and 103, article
    "A" going from 5 to 7 and a new article "B" with one citation. *)
Example compute_diff_example :
  compute_diff (snapshot_of 100 [stored (txt "A") 5] []) (profile_of 103 3 1)
               [fetched (txt "A") 7; fetched (txt "B") 1]
  = {| total_citations := {| td_old := 100; td_new := 103; td_gained := 3 |};
       h_index := {| id_old := 3; id_new := 3 |};
       i10_index := {| id_old := 1; id_new := 1 |};
       articles_with_new_citations :=
         [ {| d_title := txt "A"; d_old_count := 5; d_new_count := 7;
              d_gained := 2; d_year := txt "2020" |};
           {| d_title := txt "B"; d_old_count := 0; d_new_count := 1;
              d_gained := 1; d_year := txt "2020" |} ];
       has_changes := true |}.
Proof. vm_compute. reflexivity. Qed.

(** C1. Whatever the old snapshot, the fetched metrics and the fetched
    articles, the diff records the old total, the new total and their
    difference as [gained], and [has_changes] is true exactly when the new
    total is strictly above the old one; so [gained] is positive whenever
    [has_changes] is true, and [has_changes] is false whenever the new
    total is at most the old one. *)
Theorem compute_diff_has_changes old_data profile articles :
  let diff := compute_diff old_data profile articles in
  let old_total := dict_get (s_total_citations old_data) 0 in
  let new_total := m_total (current_metrics profile) in
  td_old (total_citations diff) = old_total ∧
  td_new (total_citations diff) = new_total ∧
  td_gained (total_citations diff) = new_total - old_total ∧
  (has_changes diff = true ↔ new_total > old_total) ∧
  (has_changes diff = true → td_gained (total_citations diff) > 0) ∧
  (new_total ≤ old_total → has_changes diff = false).
Proof.
  cbn zeta. unfold compute_diff. simpl.
  set (new_total := m_total (current_metrics profile)).
  set (old_total := dict_get (s_total_citations old_data) 0).
  repeat split; try done.
  - intros H%Z.gtb_lt. lia.
  - intros H. apply Z.gtb_lt. lia.
  - intros H%Z.gtb_lt. lia.
  - intros H. destruct (Z.gtb_spec new_total old_total); [lia | done].
Qed.

(** C2. A fetched article whose normalized title is not the normalized
    title of any article of the old snapshot gets the old count 0; when its
    new count, the ["value"] of its ["cited_by"], is positive it is listed
    in [articles_with_new_citations] with [old_count = 0] and [gained]
    equal to its new count. *)
Theorem unseen_article_starts_from_zero old_data profile articles a :
  a ∈ articles →
  fetched_key a ∉ map stored_key (dict_get (s_articles old_data) []) →
  old_count (old_articles_map old_data) a = 0 ∧
  ∀ n,
    fa_cited_by a = Some (CbObject (Some n)) →
    0 < n →
    {| d_title := PyStr.strip (dict_get (fa_title a) []);
       d_old_count := 0;
       d_new_count := n;
       d_gained := n;
       d_year := dict_get (fa_year a) [] |}
    ∈ articles_with_new_citations (compute_diff old_data profile articles).
Proof.
  intros Hin Hkey.
  assert (old_count (old_articles_map old_data) a = 0) as Hold.
  { unfold old_articles_map. rewrite old_count_lookup.
    by rewrite build_articles_map_absent. }
  split; [done|]. intros n Hcited Hpos.
  assert (new_count a = n) as Hnew by (unfold new_count; by rewrite Hcited).
  rewrite articles_with_new_citations_filter.
  apply list_elem_of_fmap. exists a. split.
  - unfold delta_entry. rewrite Hold, Hnew. f_equal. lia.
  - apply list_elem_of_filter. split; [lia | done].
Qed.

Lemma unseen_article_starts_from_zero_witness :
  old_count (old_articles_map (snapshot_of 100 [stored (txt "A") 5] []))
            (fetched (txt "B") 1) = 0 ∧
  {| d_title := txt "B"; d_old_count := 0; d_new_count := 1; d_gained := 1;
     d_year := txt "2020" |}
  ∈ articles_with_new_citations
      (compute_diff (snapshot_of 100 [stored (txt "A") 5] [])
                    (profile_of 103 3 1)
                    [fetched (txt "A") 7; fetched (txt "B") 1]).
Proof.
  destruct (unseen_article_starts_from_zero
              (snapshot_of 100 [stored (txt "A") 5] []) (profile_of 103 3 1)
              [fetched (txt "A") 7; fetched (txt "B") 1] (fetched (txt "B") 1))
    as [Hold Hlisted].
  - apply list_elem_of_further, list_elem_of_here.
  - apply (bool_decide_unpack _). vm_compute. exact I.
  - split; [exact Hold|]. apply (Hlisted 1); reflexivity.
Defined.

(** C5. The two signals of a diff are independent: there are an old
    snapshot, fetched metrics and fetched articles for which [has_changes]
    is true while [articles_with_new_citations] is empty (the total went
    from 100 to 103 and the only article kept its 5 citations). *)
Theorem has_changes_without_article_delta :
  ∃ old_data profile articles,
    has_changes (compute_diff old_data profile articles) = true ∧
    articles_with_new_citations (compute_diff old_data profile articles) = [].
Proof.
  exists (snapshot_of 100 [stored (txt "A") 5] []), (profile_of 103 3 1),
         [fetched (txt "a ") 5].
  split; vm_compute; reflexivity.
Qed.




(** C10. Stored articles with the same normalized key: the last one of the
    old list decides, its citation count is the old count of every fetched
    article with that key, and the entry of such an article in the diff
    carries it. Stored articles whose key is empty never enter the lookup
    table (the table is the one built without them, and no lookup returns
    one), and a fetched article whose key is empty gets the old count 0. *)
Theorem duplicate_titles_last_wins_empty_titles_unmatched :
  (∀ old_data profile articles before o after a,
     dict_get (s_articles old_data) [] = before ++ o :: after →
     stored_key o ≠ [] →
     stored_key o ∉ map stored_key after →
     fetched_key a = stored_key o →
     let c := dict_get (sa_citation_count o) 0 in
     old_articles_map old_data !! fetched_key a = Some o ∧
     old_count (old_articles_map old_data) a = c ∧
     (a ∈ articles → new_count a > c →
      {| d_title := PyStr.strip (dict_get (fa_title a) []);
         d_old_count := c;
         d_new_count := new_count a;
         d_gained := new_count a - c;
         d_year := dict_get (fa_year a) [] |}
      ∈ articles_with_new_citations (compute_diff old_data profile articles)))
  ∧ (∀ olds,
       build_articles_map olds
       = build_articles_map (filter (λ o, stored_key o ≠ []) olds))
  ∧ (∀ olds k o, build_articles_map olds !! k = Some o → stored_key o ≠ [])
  ∧ (∀ old_data a,
       fetched_key a = [] → old_count (old_articles_map old_data) a = 0).
Proof.
  split; [|split; [|split]].
  - intros old_data profile articles before o after a Holds Hne Hlast Hkey c.
    assert (old_articles_map old_data !! fetched_key a = Some o) as Hlk.
    { unfold old_articles_map. rewrite Holds, Hkey.
      by apply build_articles_map_last. }
    assert (old_count (old_articles_map old_data) a = c) as Hold.
    { unfold old_articles_map in *. by rewrite old_count_lookup, Hlk. }
    repeat split; [done..|]. intros Hin Hgt.
    rewrite articles_with_new_citations_filter.
    apply list_elem_of_fmap. exists a. split.
    + unfold delta_entry. by rewrite Hold.
    + apply list_elem_of_filter. split; [lia | done].
  - intros olds. apply foldl_add_skip_empty.
  - by intros olds k o (-> & Hne & _)%build_articles_map_Some.
  - intros old_data a Hkey. unfold old_articles_map.
    rewrite old_count_lookup, Hkey.
    destruct (build_articles_map _ !! []) as [o|] eqn:Hlk; [|done].
    by apply build_articles_map_Some in Hlk as (_ & ? & _).
Qed.

Lemma duplicate_titles_last_wins_empty_titles_unmatched_witness :
  old_count
    (old_articles_map
       (snapshot_of 10 [stored (txt "Foo") 1; stored (txt " foo") 2; stored (txt "Bar") 9] []))
    (fetched (txt "FOO ") 5) = 2.
Proof.
  destruct duplicate_titles_last_wins_empty_titles_unmatched as [Hlast _].
  destruct (Hlast
              (snapshot_of 10 [stored (txt "Foo") 1; stored (txt " foo") 2; stored (txt "Bar") 9] [])
              (profile_of 10 3 1) [fetched (txt "FOO ") 5]
              [stored (txt "Foo") 1] (stored (txt " foo") 2) [stored (txt "Bar") 9]
              (fetched (txt "FOO ") 5)) as (_ & Hcount & _).
  - reflexivity.
  - vm_compute. discriminate.
  - apply (bool_decide_unpack _). vm_compute. exact I.
  - vm_compute. reflexivity.
  - exact Hcount.
Defined.

(** ** Order of the per-article entries *)

Lemma insert_by_gained_perm x l : insert_by_gained x l ≡ₚ x :: l.
Proof.
  induction l as [|y l IH]; simpl; [done|].
  destruct (d_gained x <? d_gained y); [|done].
  rewrite IH. apply Permutation_swap.
Qed.

Lemma sorted_by_gained_desc_perm l : sorted_by_gained_desc l ≡ₚ l.
Proof.
  induction l as [|x l IH]; simpl; [done|].
  by rewrite insert_by_gained_perm, IH.
Qed.

Lemma insert_by_gained_sorted x l :
  StronglySorted gained_ge l → StronglySorted gained_ge (insert_by_gained x l).
Proof.
  induction 1 as [|y l Hl IH Hy]; simpl.
  - repeat constructor.
  - destruct (Z.ltb_spec (d_gained x) (d_gained y)) as [Hlt|Hge].
    + constructor; [done|]. rewrite insert_by_gained_perm.
      constructor; [unfold gained_ge; lia | done].
    + constructor; [by constructor|]. constructor; [done|].
      eapply Forall_impl; [exact Hy|]. unfold gained_ge. intros z Hz. lia.
Qed.

Lemma sorted_by_gained_desc_sorted l :
  StronglySorted gained_ge (sorted_by_gained_desc l).
Proof.
  induction l as [|x l IH]; simpl; [constructor|].
  by apply insert_by_gained_sorted.
Qed.

(** C6. The diff engine keeps the order of the fetch: the entries of
    [articles_with_new_citations] are the entries of a subsequence of the
    fetched articles, in the order of the fetched list, and there are
    inputs on which this list is not in descending order of [gained]. The
    ordering is the work of the e-mail rendering: [articles_sorted] is a
    rearrangement of the diff's list that is in descending order of
    [gained], and the table rows are its first 20 entries. *)
Theorem compute_diff_keeps_fetch_order :
  (∀ old_data profile articles,
     ∃ kept,
       kept `sublist_of` articles ∧
       articles_with_new_citations (compute_diff old_data profile articles)
       = map (delta_entry (old_articles_map old_data)) kept)
  ∧ (∃ old_data profile articles,
       ¬ StronglySorted gained_ge
           (articles_with_new_citations
              (compute_diff old_data profile articles)))
  ∧ (∀ diff,
       articles_sorted diff ≡ₚ articles_with_new_citations diff ∧
       StronglySorted gained_ge (articles_sorted diff) ∧
       build_email_html_rows diff = take 20 (articles_sorted diff)).
Proof.
  split; [|split].
  - intros old_data profile articles.
    exists (filter (λ a, old_count (old_articles_map old_data) a < new_count a)
                   articles).
    split.
    + apply sublist_filter.
    + apply articles_with_new_citations_filter.
  - exists (snapshot_of 100 [stored (txt "A") 5] []), (profile_of 106 3 1),
           [fetched (txt "A") 6; fetched (txt "B") 5].
    vm_compute. intros Hsorted.
    apply StronglySorted_inv in Hsorted as [_ Hall].
    apply Forall_inv in Hall. by apply Hall.
  - intros diff. split; [|split].
    + apply sorted_by_gained_desc_perm.
    + apply sorted_by_gained_desc_sorted.
    + reflexivity.
Qed.

(** The stable descending sort, on entries that gained 1, 5, 1 and 5. *)
Example sorted_by_gained_desc_example :
  map d_title
      (sorted_by_gained_desc
         [ {| d_title := txt "a"; d_old_count := 0; d_new_count := 1;
              d_gained := 1; d_year := [] |};
           {| d_title := txt "b"; d_old_count := 0; d_new_count := 5;
              d_gained := 5; d_year := [] |};
           {| d_title := txt "c"; d_old_count := 0; d_new_count := 1;
              d_gained := 1; d_year := [] |};
           {| d_title := txt "d"; d_old_count := 0; d_new_count := 5;
              d_gained := 5; d_year := [] |} ])
  = [(txt "b"); (txt "d"); (txt "a"); (txt "c")].
Proof. reflexivity. Qed.

(** ** Slices *)

Lemma py_last_length {A} n (l : list A) : (length (py_last n l) ≤ n)%nat.
Proof. unfold py_last. rewrite length_drop. lia. Qed.

Lemma py_last_suffix {A} n (l : list A) :
  l = take (length l - n) l ++ py_last n l.
Proof. unfold py_last. by rewrite take_drop. Qed.

Lemma py_last_snoc {A} n (l : list A) x :
  (0 < n)%nat → last (py_last n (l ++ [x])) = Some x.
Proof.
  intros Hn. unfold py_last. rewrite length_app. simpl.
  rewrite drop_app_le by lia. apply last_snoc.
Qed.

(** ** The dashboard projection *)

(** The projection is produced whenever the six indexed keys are there. *)
Lemma generate_dashboard_data_total data diff :
  is_Some (s_name data) → is_Some (s_total_citations data) →
  is_Some (s_h_index data) → is_Some (s_i10_index data) →
  is_Some (s_last_checked data) → is_Some (s_articles data) →
  is_Some (generate_dashboard_data data diff).
Proof.
  intros [? H1] [? H2] [? H3] [? H4] [? H5] [? H6].
  unfold generate_dashboard_data. rewrite H1, H2, H3, H4, H5, H6. simpl. eauto.
Qed.

Lemma generate_dashboard_data_Some data diff d :
  generate_dashboard_data data diff = Some d →
  ∃ articles,
    s_articles data = Some articles ∧
    db_articles d = take 50 articles ∧
    db_history d = py_last 90 (dict_get (s_history data) []) ∧
    db_latest_diff d =
      if has_changes diff
      then Some {| ld_gained := td_gained (total_citations diff);
                   ld_articles_count :=
                     length (articles_with_new_citations diff) |}
      else None.
Proof.
  unfold generate_dashboard_data. intros H.
  destruct (s_name data), (s_total_citations data), (s_h_index data),
    (s_i10_index data), (s_last_checked data), (s_articles data) as [arts|];
    simplify_eq/=.
  by exists arts.
Qed.

(** C8. In the dashboard data written for a snapshot and a diff,
    [latest_diff] is the object made of the diff's [gained] total and of
    the number of entries of [articles_with_new_citations] when
    [has_changes] is true, and null when [has_changes] is false. *)
Theorem dashboard_latest_diff data diff d :
  generate_dashboard_data data diff = Some d →
  (has_changes diff = true →
   db_latest_diff d
   = Some {| ld_gained := td_gained (total_citations diff);
             ld_articles_count := length (articles_with_new_citations diff) |})
  ∧ (has_changes diff = false → db_latest_diff d = None).
Proof.
  intros (arts & _ & _ & _ & Hlatest)%generate_dashboard_data_Some.
  rewrite Hlatest. split; by intros ->.
Qed.

Lemma dashboard_latest_diff_witness :
  ∃ d,
    generate_dashboard_data
      (snapshot_of 103 [stored (txt "A") 7; stored (txt "B") 1] [])
      (compute_diff (snapshot_of 100 [stored (txt "A") 5] []) (profile_of 103 3 1)
                    [fetched (txt "A") 7; fetched (txt "B") 1]) = Some d ∧
    db_latest_diff d = Some {| ld_gained := 3; ld_articles_count := 2 |}.
Proof.
  eexists. split; [reflexivity|].
  refine (proj1 (dashboard_latest_diff
                   (snapshot_of 103 [stored (txt "A") 7; stored (txt "B") 1] [])
                   (compute_diff (snapshot_of 100 [stored (txt "A") 5] [])
                                 (profile_of 103 3 1)
                                 [fetched (txt "A") 7; fetched (txt "B") 1])
                   _ eq_refl) eq_refl).
Defined.

(** C9. The dashboard data written for a snapshot holds at most 50
    articles, the first 50 of the snapshot, and at most 90 history points,
    the last 90 of the snapshot, however long the snapshot's lists are. *)
Theorem dashboard_lists_bounded data diff d :
  generate_dashboard_data data diff = Some d →
  (length (db_articles d) ≤ 50)%nat ∧
  (length (db_history d) ≤ 90)%nat ∧
  db_articles d = take 50 (dict_get (s_articles data) []) ∧
  db_history d = py_last 90 (dict_get (s_history data) []).
Proof.
  intros (arts & Harts & -> & -> & _)%generate_dashboard_data_Some.
  rewrite Harts. simpl. split; [|split; [|split]]; try done.
  - rewrite length_take. lia.
  - apply py_last_length.
Qed.

Lemma dashboard_lists_bounded_witness :
  ∃ d,
    generate_dashboard_data
      (snapshot_of 7 (replicate 60 (stored (txt "A") 7))
                   (replicate 100 (history_point (profile_of 7 3 1) (txt "d"))))
      (compute_diff (snapshot_of 7 [] []) (profile_of 7 3 1) []) = Some d ∧
    length (db_articles d) = 50%nat ∧ length (db_history d) = 90%nat ∧
    (length (db_articles d) ≤ 50)%nat ∧ (length (db_history d) ≤ 90)%nat.
Proof.
  eexists. split; [reflexivity|].
  split; [reflexivity|]. split; [reflexivity|].
  pose proof (dashboard_lists_bounded
                (snapshot_of 7 (replicate 60 (stored (txt "A") 7))
                   (replicate 100 (history_point (profile_of 7 3 1) (txt "d"))))
                (compute_diff (snapshot_of 7 [] []) (profile_of 7 3 1) [])
                _ eq_refl) as (Ha & Hh & _).
  split; [exact Ha | exact Hh].
Defined.

(** ** The snapshot update of a run *)

Lemma fetch_scholar_profile_Some env profile :
  fetch_scholar_profile env = Some profile → profile = remote_profile env.
Proof.
  unfold fetch_scholar_profile.
  destruct (negb _); [done|]. destruct (p_error _); [done|]. congruence.
Qed.

Lemma send_email_data_file env diff w :
  data_file (send_email env diff w) = data_file w.
Proof. unfold send_email. by destruct (_ || _). Qed.

(** A run with a key and an error-free profile response goes through. *)
Lemma main_completes env w :
  SERPAPI_KEY env ≠ [] → p_error (remote_profile env) = None →
  ∃ w', main env w = Completed w'.
Proof.
  intros Hkey%truthy_nonempty Herr.
  unfold main, fetch_scholar_profile. rewrite Hkey, Herr. simpl. eauto.
Qed.

(** A run never stops between saving the snapshot and the dashboard. *)
Lemma main_never_raises env w w' : main env w ≠ Raised w'.
Proof.
  unfold main. destruct (fetch_scholar_profile env); [|done]. simpl. done.
Qed.

(** C7. After a completed run the saved snapshot has a history of at most
    365 entries: the last 365 of the old history followed by the new point.
    What is cut off is taken from the front, the oldest entries, and the
    new point is the last entry kept. *)
Theorem history_keeps_last_365 env w w' :
  main env w = Completed w' →
  let old_history := dict_get (s_history (load_previous_data w)) [] in
  let point := history_point (remote_profile env) (now env) in
  ∃ data history,
    data_file w' = Some data ∧
    s_history data = Some history ∧
    (length history ≤ 365)%nat ∧
    history = py_last 365 (old_history ++ [point]) ∧
    old_history ++ [point]
    = take (length old_history + 1 - 365) (old_history ++ [point]) ++ history ∧
    last history = Some point.
Proof.
  intros Hmain old_history point. unfold main in Hmain.
  destruct (fetch_scholar_profile env) as [profile|] eqn:Hp; [|done].
  apply fetch_scholar_profile_Some in Hp as ->. simpl in Hmain.
  injection Hmain as <-.
  exists (new_data (load_previous_data w) (remote_profile env)
                   (fetch_all_articles (remote_articles env)) (now env)),
         (py_last 365 (old_history ++ [point])).
  split; [|split; [|split; [|split; [|split]]]].
  - match goal with |- context [if ?b then _ else _] => destruct b end;
      [rewrite send_email_data_file|]; reflexivity.
  - reflexivity.
  - apply py_last_length.
  - reflexivity.
  - pose proof (py_last_suffix 365 (old_history ++ [point])) as Hcut.
    rewrite length_app in Hcut. exact Hcut.
  - apply py_last_snoc. lia.
Qed.

Lemma history_keeps_last_365_witness :
  ∃ data history,
    data_file sample_world_after = Some data ∧
    s_history data = Some history ∧
    (length history ≤ 365)%nat ∧
    last history
    = Some (history_point (profile_of 103 3 1) (txt "2024-06-01T00:00:00+00:00")).
Proof.
  destruct (history_keeps_last_365 sample_env sample_world sample_world_after)
    as (data & history & Hfile & Hhist & Hlen & _ & _ & Hlast).
  { vm_compute. reflexivity. }
  exists data, history. auto.
Defined.

(** ** The pagination loop *)

Lemma fetch_loop_step remote all_articles start :
  fetch_loop remote all_articles start =
    match remote start with
    | [] => all_articles
    | a :: articles =>
        if decide (start + page_size > 500)
        then all_articles ++ a :: articles
        else fetch_loop remote (all_articles ++ a :: articles)
                        (start + page_size)
    end.
Proof.
  funelim (fetch_loop remote all_articles start);
    repeat match goal with
           | H : remote _ = _ |- _ => rewrite H; clear H
           | H : decide _ = _ |- _ => rewrite H; clear H
           end; done.
Qed.

(** The loop ends at the first empty page. *)
Lemma fetch_loop_empty_page remote all_articles start :
  remote start = [] → fetch_loop remote all_articles start = all_articles.
Proof. intros H. by rewrite fetch_loop_step, H. Qed.

(** Started [n] pages below offset 500, the loop adds at most [n + 1]
    pages of at most 100 articles. *)
Lemma fetch_loop_bound remote :
  (∀ start, (length (remote start) ≤ 100)%nat) →
  ∀ n start all_articles,
    start = 500 - 100 * Z.of_nat n →
    (length (fetch_loop remote all_articles start)
     ≤ length all_articles + 100 * (n + 1))%nat.
Proof.
  intros Hpage n. induction n as [|n IH]; intros start all_articles Hstart;
    rewrite fetch_loop_step; pose proof (Hpage start) as Hlen;
    destruct (remote start) as [|a articles]; try lia;
    destruct (decide _) as [Hgt|Hle]; rewrite ?length_app; try lia.
  - unfold page_size in Hle. lia.
  - etrans; [apply IH; unfold page_size; lia|]. rewrite length_app. lia.
Qed.

(** With pages of at most 100 articles the loop returns at most 600. *)
Lemma fetch_all_articles_bound remote :
  (∀ start, (length (remote start) ≤ 100)%nat) →
  (length (fetch_all_articles remote) ≤ 600)%nat.
Proof.
  intros Hpage. unfold fetch_all_articles.
  etrans; [apply (fetch_loop_bound remote Hpage 5); lia|]. simpl. lia.
Qed.

(** C4. The loop of [fetch_all_articles] ends at the first empty page, or
    once [start] has passed 500. That test comes after [start] was moved
    to the next page, so the page at offset 500 is still requested: on a
    remote listing that answers every request with 100 articles the loop
    gathers six pages and returns 600 articles, 100 more than the 500 of
    the safety cap. *)
Theorem fetch_all_articles_six_full_pages :
  length (fetch_all_articles full_page) = 600%nat ∧
  ¬ (length (fetch_all_articles full_page) ≤ 500)%nat.
Proof.
  assert (length (fetch_all_articles full_page) = 600%nat) as ->.
  { vm_compute. reflexivity. }
  split; [reflexivity | lia].
Qed.


(** * Further properties *)

(** ** Normalized titles *)

Section NormKeyFacts.
Import PyStr.

Lemma lower_empty s : lower s = [] ↔ s = [].
Proof.
  split; [|by intros ->]. destruct s as [|c s]; [done|].
  unfold lower. cbn [lower_from]. intros [Hc _]%app_eq_nil.
  destruct (c =? 931)%N; [done|].
  unfold lower_full in Hc. by destruct (c =? 304)%N.
Qed.

Lemma blank_lstrip s : blank (lstrip s) = blank s.
Proof.
  induction s as [|c s IH]; cbn [lstrip blank]; [done|].
  destruct (isspace c) eqn:Hc; cbn [blank andb]; [done|]. by rewrite Hc.
Qed.

Lemma rstrip_empty s : rstrip s = [] ↔ blank s = true.
Proof.
  split; [|apply rstrip_blank].
  induction s as [|c s IH]; cbn [rstrip blank]; [done|].
  destruct (rstrip s); [|done].
  destruct (isspace c); [|done]. intros _. by apply IH.
Qed.

Lemma strip_empty s : strip s = [] ↔ blank s = true.
Proof. unfold strip. by rewrite rstrip_empty, blank_lstrip. Qed.

End NormKeyFacts.

(** X1. A title has the empty key exactly when it is made of white space
    only (the empty title included). A stored article with such a title,
    or with no title, leaves the lookup table as it was; any other stored
    article is in the table under its key right after it was added. *)
Theorem empty_key_iff_blank_title :
  (∀ t, norm_key t = [] ↔ PyStr.blank t = true)
  ∧ (∀ m o, PyStr.blank (dict_get (sa_title o) []) = true →
            add_old_article m o = m)
  ∧ (∀ m o, PyStr.blank (dict_get (sa_title o) []) = false →
            add_old_article m o !! stored_key o = Some o).
Proof.
  assert (∀ t, norm_key t = [] ↔ PyStr.blank t = true) as Hkey.
  { intros t. unfold norm_key. by rewrite lower_empty, strip_empty. }
  split; [done|]. split.
  - intros m o Hb%Hkey. unfold add_old_article. by rewrite Hb.
  - intros m o Hb. rewrite lookup_add_old_article, decide_True; [done|].
    split; [done|]. unfold stored_key. rewrite Hkey. congruence.
Qed.

(** ** More on the diff engine *)

Lemma filter_none {A} (P : A → Prop) `{!∀ x, Decision (P x)} (l : list A) :
  (∀ x, x ∈ l → ¬ P x) → filter P l = [].
Proof.
  induction l as [|x l IH]; intros Hl; [done|].
  rewrite filter_cons, decide_False.
  - apply IH. intros y Hy. apply Hl. by apply list_elem_of_further.
  - apply Hl, list_elem_of_here.
Qed.

Lemma build_articles_map_empty_key olds : build_articles_map olds !! [] = None.
Proof.
  destruct (build_articles_map olds !! []) as [o|] eqn:Hlk; [|done].
  by apply build_articles_map_Some in Hlk as (_ & ? & _).
Qed.

Lemma entries_without_match m (articles : list FetchedArticle) :
  (∀ a, a ∈ articles → old_count m a = 0) →
  map (delta_entry m) (filter (λ a, old_count m a < new_count a) articles)
  = map unseen_entry (filter (λ a, 0 < new_count a) articles).
Proof.
  induction articles as [|a articles IH]; intros Hzero; [done|].
  assert (old_count m a = 0) as Ha by apply Hzero, list_elem_of_here.
  rewrite !filter_cons, Ha.
  destruct (decide (0 < new_count a)); simpl; rewrite IH.
  - f_equal. unfold delta_entry, unseen_entry. rewrite Ha. f_equal. lia.
  - intros b Hb. by apply Hzero, list_elem_of_further.
  - done.
  - intros b Hb. by apply Hzero, list_elem_of_further.
Qed.

(** X3. Every entry of [articles_with_new_citations] has a new count
    strictly above its old count and a positive [gained], which is their
    difference; there are at most as many entries as fetched articles. *)
Theorem diff_entries_gained_positive old_data profile articles :
  Forall (λ e, d_old_count e < d_new_count e ∧
               d_gained e = d_new_count e - d_old_count e ∧
               0 < d_gained e)
         (articles_with_new_citations (compute_diff old_data profile articles))
  ∧ (length (articles_with_new_citations
               (compute_diff old_data profile articles))
     ≤ length articles)%nat.
Proof.
  rewrite articles_with_new_citations_filter. split.
  - apply Forall_forall. intros e (a & -> & [Hgt _]%list_elem_of_filter)%list_elem_of_fmap.
    simpl. lia.
  - rewrite length_map. apply length_filter.
Qed.

Lemma foldl_metrics_total rows : ∀ acc,
  Forall (λ r, r_citations r = None) rows →
  m_total (foldl metrics_row acc rows) = m_total acc.
Proof.
  induction rows as [|r rows IH]; intros acc Hrows; simpl; [done|].
  apply Forall_cons in Hrows as [Hr Hrows].
  rewrite IH by done. simpl. by rewrite Hr.
Qed.

Lemma foldl_metrics_h rows : ∀ acc,
  Forall (λ r, r_h_index r = None) rows →
  m_h (foldl metrics_row acc rows) = m_h acc.
Proof.
  induction rows as [|r rows IH]; intros acc Hrows; simpl; [done|].
  apply Forall_cons in Hrows as [Hr Hrows].
  rewrite IH by done. simpl. by rewrite Hr.
Qed.

Lemma foldl_metrics_i10 rows : ∀ acc,
  Forall (λ r, r_i10_index r = None) rows →
  m_i10 (foldl metrics_row acc rows) = m_i10 acc.
Proof.
  induction rows as [|r rows IH]; intros acc Hrows; simpl; [done|].
  apply Forall_cons in Hrows as [Hr Hrows].
  rewrite IH by done. simpl. by rewrite Hr.
Qed.

(** X4. Each metric is read from the last row of [cited_by.table] that
    has it: the ["all"] entry of that row, or 0 when the entry is missing,
    whatever the rows in front of it hold. *)
Theorem metrics_come_from_last_row profile before row after :
  dict_get (p_table profile) [] = before ++ row :: after →
  (∀ o, r_citations row = Some o →
        Forall (λ r, r_citations r = None) after →
        m_total (current_metrics profile) = dict_get o 0)
  ∧ (∀ o, r_h_index row = Some o →
          Forall (λ r, r_h_index r = None) after →
          m_h (current_metrics profile) = dict_get o 0)
  ∧ (∀ o, r_i10_index row = Some o →
          Forall (λ r, r_i10_index r = None) after →
          m_i10 (current_metrics profile) = dict_get o 0).
Proof.
  intros Htable. unfold current_metrics. rewrite Htable, foldl_app. simpl.
  split; [|split]; intros o Ho Hafter.
  - rewrite foldl_metrics_total by done. simpl. by rewrite Ho.
  - rewrite foldl_metrics_h by done. simpl. by rewrite Ho.
  - rewrite foldl_metrics_i10 by done. simpl. by rewrite Ho.
Qed.

Lemma metrics_come_from_last_row_witness :
  m_total (current_metrics two_totals_profile) = 9.
Proof.
  refine (proj1 (metrics_come_from_last_row two_totals_profile
                   [ {| r_citations := Some (Some 7);
                        r_h_index := None; r_i10_index := None |} ]
                   {| r_citations := Some (Some 9);
                      r_h_index := None; r_i10_index := None |}
                   [ {| r_citations := None;
                        r_h_index := Some None; r_i10_index := None |} ]
                   eq_refl) (Some 9) eq_refl _).
  repeat constructor.
Defined.

(** X5. A profile response without a ["citations"] row (no table at all
    included) reads as a total of 0: the diff records 0 as the new total,
    minus the old total as [gained], and reports no change for any old
    total that is not negative. *)
Theorem no_citations_row_reads_as_zero old_data profile articles :
  Forall (λ r, r_citations r = None) (dict_get (p_table profile) []) →
  let diff := compute_diff old_data profile articles in
  let old_total := dict_get (s_total_citations old_data) 0 in
  td_new (total_citations diff) = 0 ∧
  td_gained (total_citations diff) = - old_total ∧
  (0 ≤ old_total → has_changes diff = false).
Proof.
  intros Hrows diff old_total.
  assert (m_total (current_metrics profile) = 0) as Hzero.
  { unfold current_metrics. by rewrite foldl_metrics_total. }
  unfold diff, compute_diff. simpl. rewrite Hzero.
  split; [done|]. split; [done|].
  intros Hold. fold old_total.
  destruct (Z.gtb_spec 0 old_total); [lia | done].
Qed.

Lemma no_citations_row_reads_as_zero_witness :
  let diff :=
    compute_diff (snapshot_of 100 [stored (txt "A") 5] [])
                 {| p_error := None; p_table := None; p_affiliations := None |}
                 [fetched (txt "A") 7] in
  td_new (total_citations diff) = 0 ∧
  td_gained (total_citations diff) = - 100 ∧
  (0 ≤ 100 → has_changes diff = false).
Proof.
  apply (no_citations_row_reads_as_zero
           (snapshot_of 100 [stored (txt "A") 5] [])
           {| p_error := None; p_table := None; p_affiliations := None |}
           [fetched (txt "A") 7]).
  constructor.
Defined.

(** X6. Against a snapshot without articles (the first run, or a missing
    ["articles"] key) the entries are those of the fetched articles with a
    positive count, in the order of the fetch, each with old count 0 and
    [gained] equal to its new count. *)
Theorem first_diff_lists_every_cited_article old_data profile articles :
  dict_get (s_articles old_data) [] = [] →
  articles_with_new_citations (compute_diff old_data profile articles)
  = map unseen_entry (filter (λ a, 0 < new_count a) articles).
Proof.
  intros Hnone. rewrite articles_with_new_citations_filter.
  apply entries_without_match. intros a _.
  unfold old_articles_map. rewrite Hnone.
  unfold build_articles_map, old_count. simpl. by rewrite lookup_empty.
Qed.

Lemma first_diff_lists_every_cited_article_witness :
  articles_with_new_citations
    (compute_diff (load_previous_data
                     {| data_file := None; dashboard_file := None;
                        outbox := [] |})
                  (profile_of 8 1 0)
                  [fetched (txt "A") 7; fetched (txt "B") 0; fetched (txt "C") 1])
  = [unseen_entry (fetched (txt "A") 7); unseen_entry (fetched (txt "C") 1)].
Proof.
  apply (first_diff_lists_every_cited_article
           (load_previous_data
              {| data_file := None; dashboard_file := None; outbox := [] |})
           (profile_of 8 1 0)
           [fetched (txt "A") 7; fetched (txt "B") 0; fetched (txt "C") 1]).
  reflexivity.
Defined.

(** X7. A fetched article whose title is missing or blank is listed in
    every diff as soon as its count is positive, with old count 0,
    whatever the old snapshot holds. *)
Theorem untitled_article_always_listed old_data profile articles a :
  a ∈ articles →
  fetched_key a = [] →
  0 < new_count a →
  unseen_entry a
  ∈ articles_with_new_citations (compute_diff old_data profile articles).
Proof.
  intros Hin Hkey Hpos.
  assert (old_count (old_articles_map old_data) a = 0) as Hold.
  { unfold old_articles_map.
    by rewrite old_count_lookup, Hkey, build_articles_map_empty_key. }
  rewrite articles_with_new_citations_filter.
  apply list_elem_of_fmap. exists a. split.
  - unfold delta_entry, unseen_entry. rewrite Hold. f_equal. lia.
  - apply list_elem_of_filter. split; [lia | done].
Qed.

Lemma untitled_article_always_listed_witness :
  unseen_entry (fetched (txt "  ") 2)
  ∈ articles_with_new_citations
      (compute_diff (snapshot_of 9 [stored (txt "  ") 2; stored (txt "A") 7] [])
                    (profile_of 9 1 0)
                    [fetched (txt "A") 7; fetched (txt "  ") 2]).
Proof.
  apply (untitled_article_always_listed
           (snapshot_of 9 [stored (txt "  ") 2; stored (txt "A") 7] [])
           (profile_of 9 1 0)
           [fetched (txt "A") 7; fetched (txt "  ") 2] (fetched (txt "  ") 2)).
  - apply list_elem_of_further, list_elem_of_here.
  - reflexivity.
  - reflexivity.
Defined.

(** ** A diff against the snapshot that was just saved *)

Lemma stored_key_stored_article a :
  stored_key (stored_article a) = fetched_key a.
Proof. reflexivity. Qed.

Lemma map_stored_key_stored_article (articles : list FetchedArticle) :
  map stored_key (map stored_article articles) = map fetched_key articles.
Proof. rewrite map_map. apply map_ext. intros a. apply stored_key_stored_article. Qed.

(** Saved under pairwise distinct, non-empty keys, every fetched article
    finds its own record and count again. *)
Lemma old_count_after_save (articles : list FetchedArticle) a :
  a ∈ articles →
  fetched_key a ≠ [] →
  NoDup (map fetched_key articles) →
  old_count (build_articles_map (map stored_article articles)) a = new_count a.
Proof.
  intros (before & after & ->)%list_elem_of_split Hne Hnodup.
  rewrite map_app in Hnodup. simpl in Hnodup.
  apply NoDup_app in Hnodup as (_ & _ & [Hlast _]%NoDup_cons).
  rewrite old_count_lookup, map_app. simpl.
  rewrite <- (stored_key_stored_article a).
  rewrite build_articles_map_last; [done | done |].
  by rewrite map_stored_key_stored_article.
Qed.

(** X8. A run on unchanged remote data is quiet: when the fetched
    articles have non-empty, pairwise distinct keys, the diff of the same
    profile and articles against the snapshot saved from them has no
    change, a [gained] total of 0 and no per-article entry. *)
Theorem diff_against_saved_snapshot_is_empty old_data profile articles now :
  (∀ a, a ∈ articles → fetched_key a ≠ []) →
  NoDup (map fetched_key articles) →
  let diff :=
    compute_diff (new_data old_data profile articles now) profile articles in
  has_changes diff = false ∧
  td_gained (total_citations diff) = 0 ∧
  articles_with_new_citations diff = [].
Proof.
  intros Hkeys Hnodup diff. unfold diff. split; [|split].
  - unfold compute_diff, new_data. simpl.
    destruct (Z.gtb_spec (m_total (current_metrics profile))
                         (m_total (current_metrics profile))); [lia | done].
  - unfold compute_diff, new_data. simpl. lia.
  - rewrite articles_with_new_citations_filter.
    rewrite filter_none; [done|]. intros a Ha.
    unfold old_articles_map, new_data. simpl.
    rewrite old_count_after_save by auto. lia.
Qed.

Lemma diff_against_saved_snapshot_is_empty_witness :
  let diff :=
    compute_diff (new_data (snapshot_of 100 [stored (txt "A") 5] [])
                           (profile_of 103 3 1)
                           [fetched (txt "A") 7; fetched (txt "B") 1] (txt "t"))
                 (profile_of 103 3 1) [fetched (txt "A") 7; fetched (txt "B") 1] in
  has_changes diff = false ∧
  td_gained (total_citations diff) = 0 ∧
  articles_with_new_citations diff = [].
Proof.
  apply (diff_against_saved_snapshot_is_empty
           (snapshot_of 100 [stored (txt "A") 5] []) (profile_of 103 3 1)
           [fetched (txt "A") 7; fetched (txt "B") 1] (txt "t")).
  - intros a Ha. apply (bool_decide_unpack _).
    apply elem_of_cons in Ha as [->|Ha]; [vm_compute; exact I|].
    apply elem_of_cons in Ha as [->|Ha]; [vm_compute; exact I|].
    by apply not_elem_of_nil in Ha.
  - apply (bool_decide_unpack _). vm_compute. exact I.
Defined.

(** ** More on the pagination loop *)

Lemma pages_until_empty_single page : pages_until_empty [page] = page.
Proof. destruct page; simpl; [done|]. by rewrite app_nil_r. Qed.

Lemma fetch_loop_pages remote n : ∀ start all_articles,
  start = 500 - 100 * Z.of_nat n →
  fetch_loop remote all_articles start
  = all_articles ++ pages_until_empty (map remote (offsets_from n start)).
Proof.
  induction n as [|n IH]; intros start all_articles Hstart;
    rewrite fetch_loop_step.
  - cbn [offsets_from map]. rewrite pages_until_empty_single.
    destruct (remote start) as [|a page]; [by rewrite app_nil_r|].
    rewrite decide_True; [done | unfold page_size; lia].
  - cbn [offsets_from map pages_until_empty].
    destruct (remote start) as [|a page]; [by rewrite app_nil_r|].
    rewrite decide_False by (unfold page_size; lia).
    rewrite IH by (unfold page_size; lia).
    by rewrite <- app_assoc.
Qed.

(** X9. The loop asks for the offsets 0, 100, ..., 500 in turn and
    returns the pages in front of the first empty one, joined in that
    order; nothing beyond offset 500 is ever asked for. *)
Theorem fetch_all_articles_pages remote :
  fetch_all_articles remote = pages_until_empty (map remote page_offsets)
  ∧ page_offsets = [0; 100; 200; 300; 400; 500].
Proof.
  split; [|reflexivity].
  unfold fetch_all_articles, page_offsets.
  by rewrite (fetch_loop_pages remote 5).
Qed.

Lemma paged_pages all n : ∀ start,
  0 ≤ start →
  pages_until_empty (map (paged all) (offsets_from n start))
  = take (100 * (n + 1)) (drop (Z.to_nat start) all).
Proof.
  induction n as [|n IH]; intros start Hstart.
  - cbn [offsets_from map]. by rewrite pages_until_empty_single.
  - cbn [offsets_from map pages_until_empty].
    rewrite IH by (unfold page_size; lia).
    replace (Z.to_nat (start + page_size))
      with (Z.to_nat start + 100)%nat by (unfold page_size; lia).
    rewrite <- drop_drop.
    replace (100 * (S n + 1))%nat with (100 + 100 * (n + 1))%nat by lia.
    rewrite <- take_take_drop. unfold paged.
    destruct (take 100 (drop (Z.to_nat start) all)) as [|a page] eqn:Hpage;
      [|done].
    apply take_nil_inv in Hpage as [?| ->]; [lia|].
    by rewrite drop_nil, take_nil.
Qed.

Lemma fetch_all_articles_ext remote1 remote2 :
  (∀ start, 0 ≤ start → remote1 start = remote2 start) →
  fetch_all_articles remote1 = fetch_all_articles remote2.
Proof.
  intros Hext. unfold fetch_all_articles.
  rewrite !(fetch_loop_pages _ 5) by lia. simpl.
  by rewrite !Hext by (unfold page_size; lia).
Qed.

(** X10. From a listing that serves its articles in pages of 100 by
    offset, the loop returns the first 600 articles, in order: all of
    them when there are at most 600, and no more than that otherwise. *)
Theorem fetch_all_articles_first_600 remote all :
  (∀ start, 0 ≤ start → remote start = take 100 (drop (Z.to_nat start) all)) →
  fetch_all_articles remote = take 600 all
  ∧ ((length all ≤ 600)%nat → fetch_all_articles remote = all).
Proof.
  intros Hremote.
  assert (fetch_all_articles remote = take 600 all) as ->.
  { rewrite (fetch_all_articles_ext remote (paged all)) by done.
    unfold fetch_all_articles. rewrite (fetch_loop_pages _ 5) by lia.
    by rewrite paged_pages. }
  split; [done|]. intros Hlen. by apply take_ge.
Qed.

Lemma fetch_all_articles_first_600_witness :
  fetch_all_articles (paged (map (fetched (txt "t")) (map Z.of_nat (seq 0 250))))
  = take 600 (map (fetched (txt "t")) (map Z.of_nat (seq 0 250))).
Proof.
  refine (proj1 (fetch_all_articles_first_600
                   (paged (map (fetched (txt "t")) (map Z.of_nat (seq 0 250))))
                   (map (fetched (txt "t")) (map Z.of_nat (seq 0 250))) _)).
  intros start _. reflexivity.
Defined.

(** X11. When no page holds more than 100 articles, the loop returns at
    most 600 articles. *)
Theorem fetch_all_articles_at_most_600 remote :
  (∀ start, (length (remote start) ≤ 100)%nat) →
  (length (fetch_all_articles remote) ≤ 600)%nat.
Proof.
  intros Hpage. unfold fetch_all_articles.
  etrans; [apply (fetch_loop_bound remote Hpage 5); lia|]. simpl. lia.
Qed.

Lemma fetch_all_articles_at_most_600_witness :
  (length (fetch_all_articles full_page) ≤ 600)%nat.
Proof.
  apply (fetch_all_articles_at_most_600 full_page).
  intros start. unfold full_page. rewrite length_map, length_seq. lia.
Defined.

(** ** More on the rows of the e-mail table *)

(** X13. The e-mail table has at most 20 rows, all of them entries of the
    diff; an entry of the diff that gained strictly more than some row is
    itself a row; and the table is empty exactly when the diff has no
    entry. *)
Theorem email_rows_are_the_top_20 diff :
  (length (build_email_html_rows diff) ≤ 20)%nat
  ∧ (∀ e, e ∈ build_email_html_rows diff →
          e ∈ articles_with_new_citations diff)
  ∧ (∀ e row, e ∈ articles_with_new_citations diff →
              row ∈ build_email_html_rows diff →
              d_gained row < d_gained e →
              e ∈ build_email_html_rows diff)
  ∧ (build_email_html_rows diff = [] ↔ articles_with_new_citations diff = []).
Proof.
  unfold build_email_html_rows.
  pose proof (sorted_by_gained_desc_perm (articles_with_new_citations diff))
    as Hperm.
  pose proof (sorted_by_gained_desc_sorted (articles_with_new_citations diff))
    as Hsorted.
  fold (articles_sorted diff) in Hperm, Hsorted.
  split; [|split; [|split]].
  - rewrite length_take. lia.
  - intros e He. rewrite <- Hperm. by apply (subseteq_take 20).
  - intros e row He Hrow Hlt. rewrite <- Hperm in He.
    rewrite <- (take_drop 20 (articles_sorted diff)) in He, Hsorted.
    apply elem_of_app in He as [He|He]; [done|].
    pose proof (StronglySorted_app_1_elem_of _ _ _ _ _ Hsorted Hrow He) as Hge.
    unfold gained_ge in Hge. lia.
  - split.
    + intros [?| Hnil]%take_nil_inv; [lia|].
      rewrite Hnil in Hperm. symmetry in Hperm.
      by apply Permutation_nil_r in Hperm.
    + intros Hnil. rewrite Hnil in Hperm.
      apply Permutation_nil_r in Hperm. by rewrite Hperm.
Qed.

(** ** More on a run *)

Lemma env_ok_true env :
  env_ok env = true ↔
  SERPAPI_KEY env ≠ [] ∧ p_error (remote_profile env) = None.
Proof.
  unfold env_ok. rewrite andb_true_iff, truthy_nonempty, bool_decide_eq_true.
  done.
Qed.

Lemma fetch_scholar_profile_ok env :
  fetch_scholar_profile env
  = if env_ok env then Some (remote_profile env) else None.
Proof.
  unfold fetch_scholar_profile, env_ok.
  destruct (PyStr.truthy (SERPAPI_KEY env)); simpl; [|done].
  destruct (p_error (remote_profile env)) eqn:Herr.
  - by rewrite bool_decide_eq_false_2.
  - by rewrite bool_decide_eq_true_2.
Qed.

(** The world that a run leaves when the profile request goes through. *)
Lemma main_ok env w :
  env_ok env = true →
  main env w
  = Completed
      {| data_file := Some (run_data env w);
         dashboard_file :=
           generate_dashboard_data (run_data env w) (run_diff env w);
         outbox :=
           if has_changes (run_diff env w) && has_credentials env
           then outbox w ++ [run_diff env w]
           else outbox w |}.
Proof.
  intros Hok. unfold main. rewrite fetch_scholar_profile_ok, Hok.
  cbv zeta. fold (run_diff env w). fold (run_data env w).
  assert (is_Some (generate_dashboard_data (run_data env w) (run_diff env w)))
    as [d Hd].
  { apply generate_dashboard_data_total; unfold run_data, new_data; simpl;
      eauto. }
  rewrite Hd. f_equal. unfold send_email, has_credentials, save_data.
  destruct (has_changes (run_diff env w)); [|done].
  by destruct (PyStr.truthy (SENDER_EMAIL env)),
    (PyStr.truthy (SENDER_PASSWORD env)).
Qed.

Lemma main_not_ok env w : env_ok env = false → main env w = Exited.
Proof.
  intros Hok. unfold main. by rewrite fetch_scholar_profile_ok, Hok.
Qed.

Lemma main_Completed_ok env w w' : main env w = Completed w' → env_ok env = true.
Proof.
  intros Hmain. destruct (env_ok env) eqn:Hok; [done|].
  by rewrite main_not_ok in Hmain.
Qed.

Lemma py_last_py_last {A} m n (l : list A) :
  (m ≤ n)%nat → py_last m (py_last n l) = py_last m l.
Proof.
  intros Hmn. unfold py_last. rewrite length_drop, drop_drop. f_equal. lia.
Qed.

Lemma py_last_app_py_last {A} n (l k : list A) :
  py_last n (py_last n l ++ k) = py_last n (l ++ k).
Proof.
  unfold py_last. rewrite !length_app, length_drop.
  destruct (decide (length l ≤ n)%nat) as [Hle|Hgt].
  - replace (length l - n)%nat with 0%nat by lia. simpl.
    by rewrite Nat.sub_0_r.
  - replace (length l - (length l - n) + length k - n)%nat
      with (length k) by lia.
    replace (length l + length k - n)%nat
      with ((length l - n) + length k)%nat by lia.
    rewrite <- drop_drop. f_equal.
    rewrite drop_app_le by lia. done.
Qed.

(** X15. A completed run sends one e-mail, built from its diff, when the
    total went up and both sender credentials are set; in every other case
    it sends none. *)
Theorem main_sends_at_most_one_mail env w w' :
  main env w = Completed w' →
  outbox w' =
    if has_changes (run_diff env w) && has_credentials env
    then outbox w ++ [run_diff env w]
    else outbox w.
Proof.
  intros Hmain. pose proof (main_Completed_ok _ _ _ Hmain) as Hok.
  rewrite main_ok in Hmain by done. by injection Hmain as <-.
Qed.

Lemma main_sends_at_most_one_mail_witness :
  outbox (run sample_env_mail sample_world)
  = [run_diff sample_env_mail sample_world].
Proof.
  apply (main_sends_at_most_one_mail sample_env_mail sample_world
           (run sample_env_mail sample_world)).
  vm_compute. reflexivity.
Defined.

(** X16. The snapshot saved by a completed run holds the fetched articles
    and nothing else: one record per fetched article, in the order of the
    fetch, with its title and new count, whatever articles the old
    snapshot had. Its totals are the new values of the diff and its
    time stamp is the time of the run. *)
Theorem main_saves_the_fetched_articles env w w' :
  main env w = Completed w' →
  let fetched_articles := fetch_all_articles (remote_articles env) in
  ∃ data,
    data_file w' = Some data ∧
    s_articles data = Some (map stored_article fetched_articles) ∧
    map sa_title (map stored_article fetched_articles)
    = map (λ a, Some (dict_get (fa_title a) [])) fetched_articles ∧
    map sa_citation_count (map stored_article fetched_articles)
    = map (λ a, Some (new_count a)) fetched_articles ∧
    s_total_citations data = Some (td_new (total_citations (run_diff env w))) ∧
    s_h_index data = Some (id_new (h_index (run_diff env w))) ∧
    s_i10_index data = Some (id_new (i10_index (run_diff env w))) ∧
    s_last_checked data = Some (Some (now env)).
Proof.
  intros Hmain fetched_articles.
  pose proof (main_Completed_ok _ _ _ Hmain) as Hok.
  rewrite main_ok in Hmain by done. injection Hmain as <-.
  exists (run_data env w). simpl.
  split; [done|]. split; [done|].
  split; [by rewrite map_map|]. split; [by rewrite map_map|]. done.
Qed.

Lemma main_saves_the_fetched_articles_witness :
  ∃ data,
    data_file (run sample_env sample_world) = Some data ∧
    s_articles data = Some [stored_article (fetched (txt "A") 7);
                            stored_article (fetched (txt "B") 1)] ∧
    s_total_citations data = Some 103.
Proof.
  destruct (main_saves_the_fetched_articles sample_env sample_world
              (run sample_env sample_world))
    as (data & Hfile & Harts & _ & _ & Htotal & _).
  { vm_compute. reflexivity. }
  exists data. split; [exact Hfile|]. split; [exact Harts | exact Htotal].
Defined.

Lemma history_of_run env w :
  history_of (run env w)
  = if env_ok env
    then py_last 365 (history_of w
                      ++ [history_point (remote_profile env) (now env)])
    else history_of w.
Proof.
  unfold run. destruct (env_ok env) eqn:Hok.
  - by rewrite main_ok.
  - by rewrite main_not_ok.
Qed.

(** X17. The dashboard written by a completed run agrees with the
    snapshot saved by the same run: same totals and time stamp, the first
    50 of the saved articles, and the last 90 points of the history, the
    point of this run being the last of them. *)
Theorem main_dashboard_matches_snapshot env w w' :
  main env w = Completed w' →
  let point := history_point (remote_profile env) (now env) in
  ∃ d,
    dashboard_file w' = Some d ∧
    db_total_citations d = td_new (total_citations (run_diff env w)) ∧
    db_h_index d = id_new (h_index (run_diff env w)) ∧
    db_i10_index d = id_new (i10_index (run_diff env w)) ∧
    db_last_checked d = Some (now env) ∧
    db_articles d
    = take 50 (map stored_article (fetch_all_articles (remote_articles env))) ∧
    db_history d = py_last 90 (history_of w ++ [point]) ∧
    last (db_history d) = Some point.
Proof.
  intros Hmain point.
  pose proof (main_Completed_ok _ _ _ Hmain) as Hok.
  rewrite main_ok in Hmain by done. injection Hmain as <-.
  eexists. split; [reflexivity|]. simpl.
  repeat (split; [done|]).
  fold (history_of w). fold point.
  rewrite py_last_py_last by lia. split; [done|].
  apply py_last_snoc. lia.
Qed.

Lemma main_dashboard_matches_snapshot_witness :
  ∃ d,
    dashboard_file (run sample_env sample_world) = Some d ∧
    db_total_citations d = 103 ∧
    length (db_history d) = 90%nat ∧
    last (db_history d)
    = Some (history_point (profile_of 103 3 1) (txt "2024-06-01T00:00:00+00:00")).
Proof.
  destruct (main_dashboard_matches_snapshot sample_env sample_world
              (run sample_env sample_world))
    as (d & Hfile & Htotal & _ & _ & _ & _ & Hhist & Hlast).
  { vm_compute. reflexivity. }
  exists d. split; [exact Hfile|]. split; [exact Htotal|].
  split; [|exact Hlast]. rewrite Hhist. reflexivity.
Defined.

(** X18. A completed run makes the history one point longer until it has
    365 points and keeps it at 365 from then on. *)
Theorem history_grows_by_one_up_to_365 env w w' :
  main env w = Completed w' →
  length (history_of w') = Nat.min 365 (S (length (history_of w))).
Proof.
  intros Hmain. pose proof (main_Completed_ok _ _ _ Hmain) as Hok.
  rewrite main_ok in Hmain by done. injection Hmain as <-.
  unfold history_of at 1. cbn [load_previous_data data_file run_data new_data
                                 s_history dict_get].
  fold (history_of w).
  unfold py_last. rewrite length_drop, length_app. cbn [length]. lia.
Qed.

Lemma history_grows_by_one_up_to_365_witness :
  length (history_of (run sample_env sample_world)) = 365%nat ∧
  length (history_of (run sample_env empty_world)) = 1%nat.
Proof.
  split.
  - refine (history_grows_by_one_up_to_365 sample_env sample_world
              (run sample_env sample_world) _).
    vm_compute. reflexivity.
  - refine (history_grows_by_one_up_to_365 sample_env empty_world
              (run sample_env empty_world) _).
    vm_compute. reflexivity.
Defined.

(** Run after run, every run whose profile request goes through adds its
    point and the history is cut to its last 365 points. *)
Lemma history_of_runs envs : ∀ w,
  history_of (runs envs w)
  = match filter (λ env, env_ok env = true) envs with
    | [] => history_of w
    | completed =>
        py_last 365
          (history_of w
           ++ map (λ env, history_point (remote_profile env) (now env))
                  completed)
    end.
Proof.
  induction envs as [|env envs IH]; intros w; [done|].
  change (runs (env :: envs) w) with (runs envs (run env w)).
  rewrite filter_cons, IH, history_of_run.
  destruct (decide (env_ok env = true)) as [Hok|Hno].
  - rewrite Hok.
    destruct (filter (λ env0, env_ok env0 = true) envs) as [|e es]; [done|].
    by rewrite py_last_app_py_last, <- app_assoc.
  - apply not_true_is_false in Hno. by rewrite Hno.
Qed.

Lemma history_of_runs_length envs : ∀ w,
  (length (history_of w) ≤ 365)%nat →
  (length (history_of (runs envs w)) ≤ 365)%nat.
Proof.
  induction envs as [|env envs IH]; intros w Hlen; [done|].
  change (runs (env :: envs) w) with (runs envs (run env w)).
  apply IH. rewrite history_of_run.
  destruct (env_ok env); [apply py_last_length | done].
Qed.


(** X21. On a first run, with no snapshot file, the old total is 0: the
    run reports a change exactly when the fetched total is positive, lists
    every fetched article with a positive count, and saves a history made
    of its own point alone. *)
Theorem first_run_starts_from_zero env w w' :
  data_file w = None →
  main env w = Completed w' →
  td_old (total_citations (run_diff env w)) = 0 ∧
  (has_changes (run_diff env w) = true ↔
   0 < m_total (current_metrics (remote_profile env))) ∧
  articles_with_new_citations (run_diff env w)
  = map unseen_entry
        (filter (λ a, 0 < new_count a)
                (fetch_all_articles (remote_articles env))) ∧
  history_of w' = [history_point (remote_profile env) (now env)].
Proof.
  intros Hnone Hmain. pose proof (main_Completed_ok _ _ _ Hmain) as Hok.
  rewrite main_ok in Hmain by done. injection Hmain as <-.
  unfold run_diff, history_of, run_data, load_previous_data. rewrite Hnone.
  split; [done|]. split; [|split].
  - unfold compute_diff. simpl. rewrite Z.gtb_lt. lia.
  - rewrite articles_with_new_citations_filter.
    apply entries_without_match. intros a _.
    unfold old_articles_map, build_articles_map, old_count. simpl.
    by rewrite lookup_empty.
  - reflexivity.
Qed.

Lemma first_run_starts_from_zero_witness :
  td_old (total_citations (run_diff sample_env empty_world)) = 0 ∧
  articles_with_new_citations (run_diff sample_env empty_world)
  = [unseen_entry (fetched (txt "A") 7); unseen_entry (fetched (txt "B") 1)].
Proof.
  destruct (first_run_starts_from_zero sample_env empty_world
              (run sample_env empty_world) eq_refl)
    as (Hold & _ & Hlist & _).
  { vm_compute. reflexivity. }
  split; [exact Hold|]. rewrite Hlist. vm_compute. reflexivity.
Defined.

(** ** What the diff reads from the stored articles *)

Lemma count_under_add m o k :
  count_under (add_old_article m o) k
  = if decide (stored_key o = k ∧ k ≠ [])
    then Some (dict_get (sa_citation_count o) 0)
    else count_under m k.
Proof.
  unfold count_under. rewrite lookup_add_old_article.
  by destruct (decide _).
Qed.

Lemma count_under_foldl olds olds' :
  Forall2 same_key_and_count olds olds' →
  ∀ m m',
    (∀ k, count_under m k = count_under m' k) →
    ∀ k, count_under (foldl add_old_article m olds) k
         = count_under (foldl add_old_article m' olds') k.
Proof.
  induction 1 as [|o o' olds olds' [Hkey Hcount] _ IH]; intros m m' Hm;
    [done|].
  simpl. apply IH. intros k. rewrite !count_under_add, Hkey, Hcount, Hm.
  done.
Qed.

Lemma old_count_count_under olds a :
  old_count (build_articles_map olds) a
  = dict_get (count_under (build_articles_map olds) (fetched_key a)) 0.
Proof.
  rewrite old_count_lookup. unfold count_under.
  by destruct (build_articles_map olds !! fetched_key a).
Qed.

Lemma foldl_diff_article_ext m m' (articles : list FetchedArticle) :
  (∀ a, old_count m a = old_count m' a) →
  ∀ acc, foldl (diff_article m) acc articles
         = foldl (diff_article m') acc articles.
Proof.
  intros Hcount. induction articles as [|a articles IH]; intros acc;
    [done|].
  simpl. rewrite IH. f_equal.
  unfold diff_article, delta_entry. by rewrite Hcount.
Qed.

(** X22. The diff reads the old snapshot through its three totals and
    through the key and citation count of each stored article only: two
    snapshots that agree on those give the same diff, whatever the
    spelling of their titles, their years, links and authors. *)
Theorem compute_diff_reads_keys_and_counts old_data old_data' profile articles :
  dict_get (s_total_citations old_data) 0
  = dict_get (s_total_citations old_data') 0 →
  dict_get (s_h_index old_data) 0 = dict_get (s_h_index old_data') 0 →
  dict_get (s_i10_index old_data) 0 = dict_get (s_i10_index old_data') 0 →
  Forall2 same_key_and_count (dict_get (s_articles old_data) [])
                             (dict_get (s_articles old_data') []) →
  compute_diff old_data profile articles
  = compute_diff old_data' profile articles.
Proof.
  intros Htotal Hh Hi10 Harticles. unfold compute_diff.
  rewrite Htotal, Hh, Hi10. f_equal.
  apply foldl_diff_article_ext. intros a. unfold old_articles_map.
  rewrite !old_count_count_under. f_equal.
  by apply (count_under_foldl _ _ Harticles).
Qed.

Lemma compute_diff_reads_keys_and_counts_witness :
  compute_diff (snapshot_of 100 [stored (txt "Foo Bar") 5; stored (txt " ") 0] [])
               (profile_of 103 3 1) [fetched (txt "foo bar") 7]
  = compute_diff
      {| s_scholar_id := None; s_name := None; s_affiliation := None;
         s_last_checked := None; s_total_citations := Some 100;
         s_h_index := Some 3; s_i10_index := Some 1;
         s_articles := Some respelled_articles; s_history := None |}
      (profile_of 103 3 1) [fetched (txt "foo bar") 7].
Proof.
  apply compute_diff_reads_keys_and_counts; try reflexivity.
  repeat constructor.
Defined.
